(** * gr-pipe: the pipe sink block (lib/sink_impl.cc)

    A shallow embedding of [gr::pipe::sink_impl]: the block that forks
    [sh -c cmd], keeps the write end of a pipe to the child's standard
    input and pushes every batch of items it is handed into that pipe.

    The C++ object and the part of the operating system it talks to are
    an explicit state; the member functions are computations in a small
    state-and-abort monad.  Every library call appends an event to a
    trace, so that statements about the order of calls are statements
    about a list.  What the operating system answers (does [fork] fail,
    how many items does [fwrite] take, is [waitpid] interrupted) is read
    from a script carried by the state; theorems quantify over it. *)

From Stdlib Require Import ZArith Lia.
From stdpp Require Import gmap strings list pretty.

Local Open Scope Z_scope.

(** ** Constants of the system headers (Linux values) *)

Definition STDIN_FILENO : Z := 0.
Definition EXIT_FAILURE : Z := 1.

Definition O_RDONLY   : Z := 0.
Definition O_WRONLY   : Z := 1.
Definition O_APPEND   : Z := 1024.
Definition O_NONBLOCK : Z := 2048.
Definition O_ASYNC    : Z := 8192.
Definition O_DIRECT   : Z := 16384.
Definition O_NOATIME  : Z := 262144.
Definition FD_CLOEXEC : Z := 1.

(** The file status flags [F_SETFL] can change; the access mode and the
    file creation flags are not among them. *)
Definition SETFL_MASK : Z :=
  Z.lor O_APPEND (Z.lor O_NONBLOCK (Z.lor O_ASYNC (Z.lor O_DIRECT O_NOATIME))).

Definition EINTR       : Z := 4.
Definition EBADF       : Z := 9.
Definition ECHILD      : Z := 10.
Definition EAGAIN      : Z := 11.
Definition EWOULDBLOCK : Z := 11.

Inductive fcntl_cmd := F_GETFL | F_SETFL | F_SETFD.

(** [int] and [size_t] as [Z], conversions with their wrap-around. *)
Definition int_of_size_t (x : Z) : Z := (x + 2 ^ 31) mod 2 ^ 32 - 2 ^ 31.
Definition size_t_of_int (x : Z) : Z := x mod 2 ^ 64.

(** [WIFEXITED] and [WEXITSTATUS] of <sys/wait.h>. *)
Definition WIFEXITED (pstat : Z) : bool := Z.land pstat 127 =? 0.
Definition WEXITSTATUS (pstat : Z) : Z := Z.shiftr (Z.land pstat 65280) 8.

(** ** The object *)

(** A [FILE *]: never assigned, null, or a stream over a descriptor. *)
Inductive FILEp := Indeterminate | NULL | Stream (fd : Z).

Record sink_impl := Sink {
  d_in_item_sz     : Z;
  d_cmd_stdin_pipe : Z * Z;
  d_cmd_stdin      : FILEp;
  d_cmd_pid        : Z;
  d_unbuffered     : bool
}.

(** ** The operating system as the block sees it *)

(** An open descriptor: file status flags ([F_GETFL]/[F_SETFL]) and
    descriptor flags ([F_SETFD]). *)
Record fdesc := Fdesc { fl_status : Z; fl_descr : Z }.

Inductive event :=
| EvPipe
| EvFork
| EvDup2 (oldfd newfd : Z)
| EvClose (fd : Z)
| EvFcntl (fd : Z) (cmd : fcntl_cmd) (arg : Z)
| EvFdopen (fd : Z) (mode : string)
| EvExecl (path : string) (argv : list string)
| EvExit (status : Z)
| EvFwrite (fd : Z) (data : list Z) (size nmemb : Z)
| EvFflush (fd : Z)
| EvFclose (fd : Z)
| EvWaitpid (pid options : Z)
| EvPerror (msg : string) (err : Z)
| EvCerr (line : string).

Inductive reply (A : Type) := Ok (a : A) | Err (err : Z).
Arguments Ok {A} a.
Arguments Err {A} err.

(** [fwrite] either takes the whole batch or stops short on an error:
    [written] whole items went through, the stream's error indicator is
    set and [errno] is [err]. *)
Inductive fwrite_reply := FwFull | FwShort (written : nat) (err : Z).

(** [waitpid] reaps a child and stores its status, or fails. *)
Inductive wait_reply := WaitOk (child : positive) (pstat : Z) | WaitErr (err : Z).

(** The answers the system will give.  A list is consumed one answer per
    call; once it is empty the call behaves normally ([waitpid]: there is
    no child left, [ECHILD]). *)
Record oracle := Oracle {
  on_pipe    : reply (Z * Z);
  on_fork    : reply Z;
  on_fcntl   : list (option Z);
  on_fdopen  : option Z;
  on_execl   : option Z;
  on_fwrite  : list fwrite_reply;
  on_fflush  : list (option Z);
  on_fclose  : option Z;
  on_waitpid : list wait_reply
}.

Record world := World {
  fds   : gmap Z fdesc;   (* open descriptors of this process *)
  ferr  : gset Z;         (* streams whose error indicator is set *)
  errno : Z;
  trace : list event;     (* calls made so far, oldest first *)
  env   : oracle
}.

Record state := State { this : sink_impl; os : world }.

(** ** Computations *)

Inductive abort :=
| Throw (what : string)                    (* std::runtime_error *)
| Exit (status : Z)                        (* exit(): the process is gone *)
| Exec (path : string) (argv : list string)  (* the image was replaced *)
| Undef                                    (* undefined behaviour *)
| OutOfFuel.

Inductive result (A : Type) := Ret (a : A) | Stop (why : abort).
Arguments Ret {A} a.
Arguments Stop {A} why.

Definition M (A : Type) : Type := state -> result A * state.

Definition ret {A} (a : A) : M A := fun s => (Ret a, s).

Definition bind {A B} (m : M A) (k : A -> M B) : M B :=
  fun s => match m s with
           | (Ret a, s') => k a s'
           | (Stop why, s') => (Stop why, s')
           end.

Definition stop {A} (why : abort) : M A := fun s => (Stop why, s).

Declare Scope cxx_scope.
Delimit Scope cxx_scope with cxx.
Notation "x <- m ;; k" := (bind m (fun x => k))
  (at level 100, m at next level, right associativity) : cxx_scope.
Notation "m ;; k" := (bind m (fun _ => k))
  (at level 100, right associativity) : cxx_scope.
Local Open Scope cxx_scope.

(** *** Access to the state *)

Definition get_this : M sink_impl := fun s => (Ret (this s), s).
Definition get_os : M world := fun s => (Ret (os s), s).
Definition set_this (f : sink_impl -> sink_impl) : M unit :=
  fun s => (Ret tt, State (f (this s)) (os s)).
Definition set_os (f : world -> world) : M unit :=
  fun s => (Ret tt, State (this s) (f (os s))).

Definition with_fds (f : gmap Z fdesc -> gmap Z fdesc) (w : world) : world :=
  World (f (fds w)) (ferr w) (errno w) (trace w) (env w).
Definition with_ferr (f : gset Z -> gset Z) (w : world) : world :=
  World (fds w) (f (ferr w)) (errno w) (trace w) (env w).
Definition with_errno (e : Z) (w : world) : world :=
  World (fds w) (ferr w) e (trace w) (env w).
Definition with_event (e : event) (w : world) : world :=
  World (fds w) (ferr w) (errno w) (trace w ++ [e]) (env w).
Definition with_env (f : oracle -> oracle) (w : world) : world :=
  World (fds w) (ferr w) (errno w) (trace w) (f (env w)).

Definition log (e : event) : M unit := set_os (with_event e).
Definition set_errno (e : Z) : M unit := set_os (with_errno e).
Definition get_errno : M Z := w <- get_os;; ret (errno w).

(** Failing the C way: set [errno], hand back the error value. *)
Definition fail_with {A} (e : Z) (r : A) : M A := set_errno e;; ret r.

Definition next_fcntl (o : oracle) : oracle :=
  Oracle (on_pipe o) (on_fork o) (tail (on_fcntl o)) (on_fdopen o) (on_execl o)
         (on_fwrite o) (on_fflush o) (on_fclose o) (on_waitpid o).
Definition next_fwrite (o : oracle) : oracle :=
  Oracle (on_pipe o) (on_fork o) (on_fcntl o) (on_fdopen o) (on_execl o)
         (tail (on_fwrite o)) (on_fflush o) (on_fclose o) (on_waitpid o).
Definition next_fflush (o : oracle) : oracle :=
  Oracle (on_pipe o) (on_fork o) (on_fcntl o) (on_fdopen o) (on_execl o)
         (on_fwrite o) (tail (on_fflush o)) (on_fclose o) (on_waitpid o).
Definition next_waitpid (o : oracle) : oracle :=
  Oracle (on_pipe o) (on_fork o) (on_fcntl o) (on_fdopen o) (on_execl o)
         (on_fwrite o) (on_fflush o) (on_fclose o) (tail (on_waitpid o)).

(** ** The library calls the block makes *)

Definition perror (msg : string) : M unit :=
  e <- get_errno;; log (EvPerror msg e).

Definition cerr_line (line : string) : M unit := log (EvCerr line).

Definition exit {A} (status : Z) : M A :=
  log (EvExit status);; stop (Exit status).

(** [pipe(pipefd)]: two new descriptors, read end first; on failure the
    array is left alone.  The value returned is paired with the content
    of the array afterwards. *)
Definition pipe (pipefd : Z * Z) : M (Z * (Z * Z)) :=
  log EvPipe;;
  w <- get_os;;
  match on_pipe (env w) with
  | Ok (rd, wr) =>
      set_os (with_fds (fun m => <[wr := Fdesc O_WRONLY 0]> (<[rd := Fdesc O_RDONLY 0]> m)));;
      ret (0, (rd, wr))
  | Err e => fail_with e (-1, pipefd)
  end.

(** [fork()]: [0] in the child, the child's pid in the parent. *)
Definition fork : M Z :=
  log EvFork;;
  w <- get_os;;
  match on_fork (env w) with
  | Ok pid => ret pid
  | Err e => fail_with e (-1)
  end.

Definition dup2 (oldfd newfd : Z) : M Z :=
  log (EvDup2 oldfd newfd);;
  w <- get_os;;
  match fds w !! oldfd with
  | Some d =>
      (if decide (oldfd = newfd) then ret tt
       else set_os (with_fds (fun m => <[newfd := Fdesc (fl_status d) 0]> m)));;
      ret newfd
  | None => fail_with EBADF (-1)
  end.

Definition close (fd : Z) : M Z :=
  log (EvClose fd);;
  w <- get_os;;
  match fds w !! fd with
  | Some _ => set_os (with_fds (fun m => delete fd m));; ret 0
  | None => fail_with EBADF (-1)
  end.

(** What [F_SETFL] makes of the status flags [old] when handed [arg]:
    the bits of [SETFL_MASK] are taken from [arg], every other bit
    stays as it is. *)
Definition setfl (old arg : Z) : Z :=
  Z.lor (Z.land old (Z.lnot SETFL_MASK)) (Z.land arg SETFL_MASK).

(** [fcntl(fd, cmd, arg)].  [F_GETFL] returns the file status flags (it
    takes no argument: [arg] is [0] and unused), [F_SETFL] changes the
    file status flags it can change to those of [arg], [F_SETFD]
    installs [arg] as the descriptor flags. *)
Definition fcntl (fd : Z) (cmd : fcntl_cmd) (arg : Z) : M Z :=
  log (EvFcntl fd cmd arg);;
  w <- get_os;;
  set_os (with_env next_fcntl);;
  match head (on_fcntl (env w)) with
  | Some (Some e) => fail_with e (-1)
  | _ =>
      match fds w !! fd with
      | None => fail_with EBADF (-1)
      | Some d =>
          match cmd with
          | F_GETFL => ret (fl_status d)
          | F_SETFL =>
              set_os (with_fds
                        (fun m => <[fd := Fdesc (setfl (fl_status d) arg) (fl_descr d)]> m));;
              ret 0
          | F_SETFD =>
              set_os (with_fds (fun m => <[fd := Fdesc (fl_status d) arg]> m));; ret 0
          end
      end
  end.

Definition fdopen (fd : Z) (mode : string) : M FILEp :=
  log (EvFdopen fd mode);;
  w <- get_os;;
  match on_fdopen (env w) with
  | Some e => fail_with e NULL
  | None =>
      match fds w !! fd with
      | Some _ => ret (Stream fd)
      | None => fail_with EBADF NULL
      end
  end.

(** [execl] returns only when it failed. *)
Definition execl (path : string) (argv : list string) : M Z :=
  log (EvExecl path argv);;
  w <- get_os;;
  match on_execl (env w) with
  | None => stop (Exec path argv)
  | Some e => fail_with e (-1)
  end.

(** [fwrite(ptr, size, nmemb, stream)]: the number of whole items
    written.  Nothing happens when [size] or [nmemb] is zero. *)
Definition fwrite (data : list Z) (size nmemb : Z) (stream : FILEp) : M Z :=
  match stream with
  | Stream fd =>
      log (EvFwrite fd data size nmemb);;
      if (size =? 0) || (nmemb =? 0) then ret 0
      else
        w <- get_os;;
        set_os (with_env next_fwrite);;
        match head (on_fwrite (env w)) with
        | Some (FwShort written e) =>
            set_os (with_ferr (fun x => {[fd]} ∪ x));;
            fail_with e (Z.min (Z.of_nat written) nmemb)
        | _ => ret nmemb
        end
  | _ => stop Undef
  end.

Definition ferror (stream : FILEp) : M bool :=
  match stream with
  | Stream fd => w <- get_os;; ret (bool_decide (fd ∈ ferr w))
  | _ => stop Undef
  end.

Definition fflush (stream : FILEp) : M Z :=
  match stream with
  | Stream fd =>
      log (EvFflush fd);;
      w <- get_os;;
      set_os (with_env next_fflush);;
      match head (on_fflush (env w)) with
      | Some (Some e) =>
          set_os (with_ferr (fun x => {[fd]} ∪ x));;
          fail_with e (-1)
      | _ => ret 0
      end
  | _ => stop Undef
  end.

(** [fclose]: flushes, then closes the descriptor whatever the flush did. *)
Definition fclose (stream : FILEp) : M Z :=
  match stream with
  | Stream fd =>
      log (EvFclose fd);;
      w <- get_os;;
      set_os (with_fds (fun m => delete fd m));;
      set_os (with_ferr (fun x => x ∖ {[fd]}));;
      match on_fclose (env w) with
      | Some e => fail_with e (-1)
      | None => ret 0
      end
  | _ => stop Undef
  end.

(** [waitpid(pid, &pstat, options)]: the value returned, paired with the
    content of [pstat] afterwards; [pstat] is only written on success. *)
Definition waitpid (pid : Z) (pstat : option Z) (options : Z) : M (Z * option Z) :=
  log (EvWaitpid pid options);;
  w <- get_os;;
  set_os (with_env next_waitpid);;
  match head (on_waitpid (env w)) with
  | Some (WaitOk child st) => ret (Z.pos child, Some st)
  | Some (WaitErr e) => fail_with e (-1, pstat)
  | None => fail_with ECHILD (-1, pstat)
  end.

(** ** Control-flow helpers *)

Definition throw {A} (what : string) : M A := stop (Throw what).

(** [if (c) { body }] *)
Definition when (c : bool) (body : M unit) : M unit :=
  if c then body else ret tt.

(** [a && b], the right operand evaluated only when the left holds. *)
Definition and_then (a b : M bool) : M bool :=
  x <- a;; if x then b else ret false.
Infix "&&&" := and_then (at level 40, left associativity) : cxx_scope.

Definition errno_differs (e : Z) : M bool :=
  x <- get_errno;; ret (negb (x =? e)).

(** ** sink_impl: the member functions *)

Definition set_in_item_sz (v : Z) (s : sink_impl) : sink_impl :=
  Sink v (d_cmd_stdin_pipe s) (d_cmd_stdin s) (d_cmd_pid s) (d_unbuffered s).
Definition set_cmd_stdin_pipe (v : Z * Z) (s : sink_impl) : sink_impl :=
  Sink (d_in_item_sz s) v (d_cmd_stdin s) (d_cmd_pid s) (d_unbuffered s).
Definition set_cmd_stdin (v : FILEp) (s : sink_impl) : sink_impl :=
  Sink (d_in_item_sz s) (d_cmd_stdin_pipe s) v (d_cmd_pid s) (d_unbuffered s).
Definition set_cmd_pid (v : Z) (s : sink_impl) : sink_impl :=
  Sink (d_in_item_sz s) (d_cmd_stdin_pipe s) (d_cmd_stdin s) v (d_unbuffered s).
Definition set_d_unbuffered (v : bool) (s : sink_impl) : sink_impl :=
  Sink (d_in_item_sz s) (d_cmd_stdin_pipe s) (d_cmd_stdin s) (d_cmd_pid s) v.

Definition unbuffered : M bool :=
  s <- get_this;; ret (d_unbuffered s).

Definition set_unbuffered (unbuffered : bool) : M unit :=
  set_this (set_d_unbuffered unbuffered).

Definition set_fd_flags (fd flags : Z) : M unit :=
  r <- fcntl fd F_GETFL 0;;
  when (r =? -1) (perror "fcntl()";; throw "fcntl() error");;
  r' <- fcntl fd F_SETFL (Z.lor r flags);;
  when (r' =? -1) (perror "fcntl()";; throw "fcntl() error").

Definition reset_fd_flags (fd flag : Z) : M unit :=
  r <- fcntl fd F_GETFL 0;;
  when (r =? -1) (perror "fcntl()";; throw "fcntl() error");;
  r' <- fcntl fd F_SETFL (Z.land r (Z.lnot flag));;
  when (r' =? -1) (perror "fcntl()";; throw "fcntl() error").

(** The array is an out-parameter: the new content is handed back. *)
Definition create_pipe (pipefd : Z * Z) : M (Z * Z) :=
  p <- pipe pipefd;;
  when (negb (fst p =? 0)) (perror "pipe()";; throw "pipe() error");;
  ret (snd p).

Definition create_command_process (cmd : string) : M unit :=
  s <- get_this;;
  pipefd <- create_pipe (d_cmd_stdin_pipe s);;
  set_this (set_cmd_stdin_pipe pipefd);;
  pid <- fork;;
  set_this (set_cmd_pid pid);;
  if pid =? -1 then
    perror "fork()"
  else if pid =? 0 then
    dup2 (fst pipefd) STDIN_FILENO;;
    close (fst pipefd);;
    close (snd pipefd);;
    execl "/bin/sh" ["sh"; "-c"; cmd];;
    perror "execl()";;
    exit EXIT_FAILURE
  else
    close (fst pipefd);;
    set_fd_flags (snd pipefd) O_NONBLOCK;;
    fcntl (snd pipefd) F_SETFD FD_CLOEXEC;;
    f <- fdopen (snd pipefd) "w";;
    set_this (set_cmd_stdin f);;
    when (match f with NULL => true | _ => false end)
         (perror "fdopen()";; throw "fdopen() error").

(** The constructor: the base-class part belongs to the framework; the
    members other than [d_in_item_sz] are left as the storage had them. *)
Definition sink_impl_ctor (in_item_sz : Z) (cmd : string) : M unit :=
  set_this (set_in_item_sz in_item_sz);;
  create_command_process cmd.

Definition write_process_input (inp : list Z) (nitems : Z) : M Z :=
  s <- get_this;;
  r <- fwrite inp (d_in_item_sz s) (size_t_of_int nitems) (d_cmd_stdin s);;
  fatal <- ret (r =? 0) &&& ferror (d_cmd_stdin s)
             &&& errno_differs EAGAIN &&& errno_differs EWOULDBLOCK;;
  if fatal then throw "fwrite() error"
  else
    when (d_unbuffered s) (fflush (d_cmd_stdin s);; ret tt);;
    ret (int_of_size_t r).

Definition work (noutput_items : Z) (input_items output_items : list (list Z)) : M Z :=
  match input_items with
  | inp :: _ =>
      n_consumed <- write_process_input inp noutput_items;;
      ret noutput_items
  | [] => stop Undef
  end.

(** The [do ... while (ret == -1 && errno == EINTR)] of the destructor;
    [fuel] bounds the number of rounds. *)
Fixpoint wait_for_child (fuel : nat) (pid : Z) (pstat : option Z) : M (Z * option Z) :=
  match fuel with
  | O => stop OutOfFuel
  | S fuel' =>
      p <- waitpid pid pstat 0;;
      again <- ret (fst p =? -1) &&& (e <- get_errno;; ret (e =? EINTR));;
      if again then wait_for_child fuel' pid (snd p) else ret p
  end.

Definition sink_impl_dtor (fuel : nat) : M unit :=
  s <- get_this;;
  reset_fd_flags (snd (d_cmd_stdin_pipe s)) O_NONBLOCK;;
  fclose (d_cmd_stdin s);;
  p <- wait_for_child fuel (d_cmd_pid s) None;;
  if fst p =? -1 then
    perror "waitpid()"
  else
    match snd p with
    | Some st =>
        if WIFEXITED st then
          cerr_line ("Process exited with code " +:+ pretty (WEXITSTATUS st))
        else
          cerr_line "Abnormal process termination"
    | None => stop Undef
    end.

(** ** Vocabulary of the statements *)

(** Flags made only of bits that [F_SETFL] can change. *)
Definition settable (flags : Z) : Prop := Z.land flags (Z.lnot SETFL_MASK) = 0.

(** No fault is injected into the next [n] calls of [fcntl]. *)
Fixpoint fault_free (n : nat) (l : list (option Z)) : bool :=
  match n, l with
  | S n', None :: l' => fault_free n' l'
  | S _, Some _ :: _ => false
  | _, _ => true
  end.

(** How a script of [waitpid] answers plays out: the number of leading
    interruptions, the answer that settles the wait, what the wait loop
    hands back for it and what the destructor prints for it. *)
Fixpoint interrupts (l : list wait_reply) : nat :=
  match l with
  | WaitErr e :: l' => if e =? EINTR then S (interrupts l') else O
  | _ => O
  end.

Definition settled (l : list wait_reply) : wait_reply :=
  default (WaitErr ECHILD) (head (drop (interrupts l) l)).

Definition wait_value (pstat : option Z) (r : wait_reply) : Z * option Z :=
  match r with
  | WaitOk child st => (Z.pos child, Some st)
  | WaitErr _ => (-1, pstat)
  end.

Definition verdict (r : wait_reply) : event :=
  match r with
  | WaitErr e => EvPerror "waitpid()" e
  | WaitOk _ st =>
      if WIFEXITED st
      then EvCerr ("Process exited with code " +:+ pretty (WEXITSTATUS st))
      else EvCerr "Abnormal process termination"
  end.

(** The condition under which [write_process_input] gives up, read off
    the state [fwrite] left behind. *)
Definition hard_error (fd r : Z) (s1 : state) : Prop :=
  r = 0 /\ fd ∈ ferr (os s1) /\ errno (os s1) <> EAGAIN /\ errno (os s1) <> EWOULDBLOCK.

Definition hard_errorb (fd r : Z) (s1 : state) : bool :=
  (r =? 0) && bool_decide (fd ∈ ferr (os s1))
  && negb (errno (os s1) =? EAGAIN) && negb (errno (os s1) =? EWOULDBLOCK).

(** The same state with the unbuffered flag forced to [b]. *)
Definition flagged (b : bool) (s : state) : state :=
  State (set_d_unbuffered b (this s)) (os s).

(** A computation that neither reads nor writes the unbuffered flag. *)
Definition blind {A} (m : M A) : Prop :=
  forall b s, m (flagged b s) = let (res, s') := m s in (res, flagged b s').

(** ** Concrete runs, used to exercise the statements below *)

(** Storage before the constructor ran: no member has a value yet. *)
Definition fresh_storage : sink_impl := Sink 0 (0, 0) Indeterminate 0 false.

(** A process with the three standard descriptors open. *)
Definition boot (o : oracle) : state :=
  State fresh_storage
        (World {[0 := Fdesc O_RDONLY 0; 1 := Fdesc O_WRONLY 0; 2 := Fdesc O_WRONLY 0]}
               ∅ 0 [] o).

(** Nothing goes wrong; the child ends with [exit 7]. *)
Definition quiet : oracle :=
  Oracle (Ok (3, 4)) (Ok 4242) [] None None [] [] None [WaitOk 4242%positive 1792].

(** [fork] fails with [ENOMEM]. *)
Definition fork_fails : oracle :=
  Oracle (Ok (3, 4)) (Err 12) [] None None [] [] None [].

(** We are the child and [/bin/sh] cannot be executed ([ENOENT]). *)
Definition exec_fails : oracle :=
  Oracle (Ok (3, 4)) (Ok 0) [] None (Some 2) [] [] None [].

(** The wait is interrupted twice before the child is reaped. *)
Definition interrupted : oracle :=
  Oracle (Ok (3, 4)) (Ok 4242) [] None None [] [] None
         [WaitErr EINTR; WaitErr EINTR; WaitOk 4242%positive 1792].

(** The fourth [fcntl], the first of the destructor, fails. *)
Definition late_fcntl_fault : oracle :=
  Oracle (Ok (3, 4)) (Ok 4242) [None; None; None; Some EBADF] None None [] [] None
         [WaitOk 4242%positive 1792].

(** The pipe takes one item and would block on the next. *)
Definition pipe_full : oracle :=
  Oracle (Ok (3, 4)) (Ok 4242) [] None None [FwShort 1 EAGAIN] [] None
         [WaitOk 4242%positive 1792].

(** The reader is gone: nothing is taken, [EPIPE]. *)
Definition broken_pipe : oracle :=
  Oracle (Ok (3, 4)) (Ok 4242) [] None None [FwShort 0 32] [] None
         [WaitOk 4242%positive 1792].

Definition run {A} (m : M A) (s : state) : state := snd (m s).

(** The sink as the constructor leaves it. *)
Definition built (o : oracle) : state := run (sink_impl_ctor 4 "cat") (boot o).


(** Further runs: [pipe] fails ([EMFILE]); [fdopen] fails ([ENOMEM]);
    the [F_SETFD] call fails; the flush of an unbuffered write fails
    ([EPIPE]); the child's [execl] succeeds. *)
Definition pipe_fails : oracle :=
  Oracle (Err 24) (Ok 4242) [] None None [] [] None [].

Definition fdopen_fails : oracle :=
  Oracle (Ok (3, 4)) (Ok 4242) [] (Some 12) None [] [] None [WaitOk 4242%positive 0].

Definition setfd_fails : oracle :=
  Oracle (Ok (3, 4)) (Ok 4242) [None; None; Some EBADF] None None [] [] None
         [WaitOk 4242%positive 0].

Definition flush_fails : oracle :=
  Oracle (Ok (3, 4)) (Ok 4242) [] None None [] [Some 32] None [WaitOk 4242%positive 0].


(** A process started with standard input closed: [pipe] hands out
    descriptor [0] as the read end. *)
Definition boot_without_stdin (o : oracle) : state :=
  State fresh_storage
        (World {[1 := Fdesc O_WRONLY 0; 2 := Fdesc O_WRONLY 0]} ∅ 0 [] o).

Definition stdin_is_pipe : oracle :=
  Oracle (Ok (0, 3)) (Ok 0) [] None None [] [] None [].

(** An event that is not a call of [waitpid]. *)
Definition not_a_wait (ev : event) : Prop :=
  match ev with EvWaitpid _ _ => False | _ => True end.

(** * Properties *)

(** ** What [F_SETFL] does to the flags the helpers hand it *)

Ltac bitwise :=
  apply Z.bits_inj'; intros ?i ?Hi;
  repeat (rewrite Z.lor_spec || rewrite Z.land_spec || rewrite Z.lnot_spec by assumption);
  repeat match goal with |- context [Z.testbit ?a ?i] => destruct (Z.testbit a i) end;
  reflexivity.

Lemma setfl_lor F flags :
  setfl F (Z.lor F flags) = Z.lor F (Z.land flags SETFL_MASK).
Proof. unfold setfl. generalize SETFL_MASK. intros m. bitwise. Qed.

Lemma setfl_land F flag :
  setfl F (Z.land F (Z.lnot flag)) = Z.land F (Z.lnot (Z.land flag SETFL_MASK)).
Proof. unfold setfl. generalize SETFL_MASK. intros m. bitwise. Qed.

Lemma nonblock_settable : Z.land O_NONBLOCK SETFL_MASK = O_NONBLOCK.
Proof. reflexivity. Qed.

Lemma settable_masked flags : settable flags -> Z.land flags SETFL_MASK = flags.
Proof.
  unfold settable. generalize SETFL_MASK. intros m H.
  apply Z.bits_inj'. intros i Hi.
  assert (Hb : Z.testbit (Z.land flags (Z.lnot m)) i = false) by (rewrite H; apply Z.bits_0).
  rewrite Z.land_spec, Z.lnot_spec in Hb by assumption. rewrite Z.land_spec.
  destruct (Z.testbit flags i), (Z.testbit m i); cbn in *; congruence.
Qed.

(** Symbolic execution of a member function: unfold the monad and the
    library model, then reduce what became closed. *)
Ltac exec :=
  cbv beta iota zeta delta
    [bind ret stop throw when and_then errno_differs
     get_this get_os set_this set_os log set_errno get_errno fail_with
     perror cerr_line exit pipe fork dup2 close fcntl fdopen execl
     fwrite ferror fflush fclose waitpid
     with_fds with_ferr with_errno with_event with_env
     next_fcntl next_fwrite next_fflush next_waitpid
     set_in_item_sz set_cmd_stdin_pipe set_cmd_stdin set_cmd_pid set_d_unbuffered];
  cbn -[insert delete lookup union difference elem_of bool_decide decide
        Z.lor Z.land Z.lnot Z.min Z.modulo Z.pow String.app pretty setfl
        size_t_of_int int_of_size_t WIFEXITED WEXITSTATUS].

Ltac go :=
  repeat (progress (exec; rewrite ?setfl_lor, ?setfl_land, ?nonblock_settable;
                    simplify_map_eq)).

(** Open up a state whose fields are constrained by hypotheses. *)
Ltac open_state s :=
  destruct s as [[? ? ? ? ?] [? ? ? ? [? ? ? ? ? ? ? ? ?]]]; cbn in *; subst.

Ltac flat_trace := rewrite <- ?app_assoc; cbn [app].

Lemma bind_run {A B} (m : M A) (k : A -> M B) s :
  bind m k s =
  match m s with
  | (Ret a, s') => k a s'
  | (Stop why, s') => (Stop why, s')
  end.
Proof. reflexivity. Qed.

(** ** Construction *)

Section Construction.

Variables (in_item_sz : Z) (cmd : string) (s : state) (rd wr : Z).
Hypothesis pipe_ok : on_pipe (env (os s)) = Ok (rd, wr).

(** C1, what the code does: when [fork] fails the constructor reports
    it with [perror] and then returns normally.  The caller gets an
    object whose [d_cmd_pid] is [-1] and whose [d_cmd_stdin] was never
    assigned; no exception is raised. *)
Theorem ctor_fork_failure_returns e :
  on_fork (env (os s)) = Err e ->
  exists s',
    sink_impl_ctor in_item_sz cmd s = (Ret tt, s') /\
    d_cmd_pid (this s') = -1 /\
    d_cmd_stdin (this s') = d_cmd_stdin (this s) /\
    trace (os s') = trace (os s) ++ [EvPipe; EvFork; EvPerror "fork()" e].
Proof.
  intros Hf. unfold sink_impl_ctor, create_command_process, create_pipe.
  open_state s. go. eexists. split; [reflexivity|]. go.
  repeat split. now flat_trace.
Qed.

(** C7: in the child, when [execl] comes back the process reports it
    and exits with [EXIT_FAILURE]; whatever would follow the call of
    [create_command_process] is not run, and none of the parent
    branch's calls is made. *)
Theorem child_exec_failure_exits e :
  on_fork (env (os s)) = Ok 0 ->
  on_execl (env (os s)) = Some e ->
  exists s',
    create_command_process cmd s = (Stop (Exit EXIT_FAILURE), s') /\
    (forall (k : unit -> M unit),
        (create_command_process cmd;; k tt) s = (Stop (Exit EXIT_FAILURE), s')) /\
    sink_impl_ctor in_item_sz cmd s =
      (Stop (Exit EXIT_FAILURE), State (set_in_item_sz in_item_sz (this s')) (os s')) /\
    trace (os s') =
      trace (os s) ++
      [EvPipe; EvFork; EvDup2 rd STDIN_FILENO; EvClose rd; EvClose wr;
       EvExecl "/bin/sh" ["sh"; "-c"; cmd]; EvPerror "execl()" e;
       EvExit EXIT_FAILURE].
Proof.
  intros Hf Hx.
  assert (H : exists s', create_command_process cmd s = (Stop (Exit EXIT_FAILURE), s') /\
    sink_impl_ctor in_item_sz cmd s =
      (Stop (Exit EXIT_FAILURE), State (set_in_item_sz in_item_sz (this s')) (os s')) /\
    trace (os s') =
      trace (os s) ++
      [EvPipe; EvFork; EvDup2 rd STDIN_FILENO; EvClose rd; EvClose wr;
       EvExecl "/bin/sh" ["sh"; "-c"; cmd]; EvPerror "execl()" e;
       EvExit EXIT_FAILURE]).
  { unfold sink_impl_ctor, create_command_process, create_pipe, dup2, close.
    open_state s. go. repeat (case_match; go).
    all: eexists; split; [reflexivity|]; go; split; [reflexivity|now flat_trace]. }
  destruct H as (s' & H1 & H2 & H3). exists s'. repeat split; try assumption.
  intros k. unfold bind. now rewrite H1.
Qed.

(** C8: in the parent, once the child exists, the read end is closed
    first, then the write end is made non-blocking, marked
    close-on-exec and wrapped in a stream.  Afterwards this process
    holds no descriptor for the read end, and no other descriptor was
    touched. *)
Theorem parent_branch_setup pid :
  rd <> wr ->
  on_fork (env (os s)) = Ok pid ->
  0 < pid ->
  fault_free 3 (on_fcntl (env (os s))) = true ->
  on_fdopen (env (os s)) = None ->
  exists s',
    create_command_process cmd s = (Ret tt, s') /\
    trace (os s') =
      trace (os s) ++
      [EvPipe; EvFork; EvClose rd;
       EvFcntl wr F_GETFL 0; EvFcntl wr F_SETFL (Z.lor O_WRONLY O_NONBLOCK);
       EvFcntl wr F_SETFD FD_CLOEXEC; EvFdopen wr "w"] /\
    this s' =
      Sink (d_in_item_sz (this s)) (rd, wr) (Stream wr) pid (d_unbuffered (this s)) /\
    fds (os s') !! rd = None /\
    fds (os s') !! wr = Some (Fdesc (Z.lor O_WRONLY O_NONBLOCK) FD_CLOEXEC) /\
    (forall fd, fd <> rd -> fd <> wr -> fds (os s') !! fd = fds (os s) !! fd).
Proof.
  intros Hne Hf Hpid Hfc Hfd.
  unfold create_command_process, create_pipe, set_fd_flags.
  open_state s. exec.
  destruct (Z.eqb_spec pid (-1)); [lia|]. destruct (Z.eqb_spec pid 0); [lia|].
  destruct on_fcntl0 as [|[?|] [|[?|] [|[?|] ?]]]; try discriminate; go.
  all: eexists; split; [reflexivity|]; go.
  all: repeat split; [now flat_trace | intros; now simplify_map_eq].
Qed.

(** X15: whatever becomes of the later steps, the parent's first call
    after [fork] closes the read end, and the parent is left without
    it. *)
Lemma parent_closes_read_end_first pid :
  rd <> wr ->
  on_fork (env (os s)) = Ok pid ->
  0 < pid ->
  exists evs,
    trace (os (run (create_command_process cmd) s)) =
      trace (os s) ++ [EvPipe; EvFork; EvClose rd] ++ evs /\
    fds (os (run (create_command_process cmd) s)) !! rd = None.
Proof.
  intros Hne Hf Hpid.
  unfold run, create_command_process, create_pipe, set_fd_flags.
  open_state s. exec.
  destruct (Z.eqb_spec pid (-1)); [lia|]. destruct (Z.eqb_spec pid 0); [lia|].
  go. repeat (case_match; go).
  all: eexists; flat_trace; split; [reflexivity|now simplify_map_eq].
Qed.

(** The sibling failure paths of construction do raise. *)
Lemma ctor_fdopen_failure_throws pid e :
  rd <> wr ->
  on_fork (env (os s)) = Ok pid ->
  0 < pid ->
  fault_free 3 (on_fcntl (env (os s))) = true ->
  on_fdopen (env (os s)) = Some e ->
  exists s', sink_impl_ctor in_item_sz cmd s = (Stop (Throw "fdopen() error"), s').
Proof.
  intros Hne Hf Hpid Hfc Hfd.
  unfold sink_impl_ctor, create_command_process, create_pipe, set_fd_flags.
  open_state s. exec.
  destruct (Z.eqb_spec pid (-1)); [lia|]. destruct (Z.eqb_spec pid 0); [lia|].
  destruct on_fcntl0 as [|[?|] [|[?|] [|[?|] ?]]]; try discriminate; go.
  all: eexists; reflexivity.
Qed.

End Construction.

Lemma ctor_pipe_failure_throws in_item_sz cmd s e :
  on_pipe (env (os s)) = Err e ->
  exists s', sink_impl_ctor in_item_sz cmd s = (Stop (Throw "pipe() error"), s').
Proof.
  intros Hp. unfold sink_impl_ctor, create_command_process, create_pipe.
  open_state s. go. eexists; reflexivity.
Qed.

(** What the object of a failed [fork] is good for: its stream was never
    assigned, so the first [work] and the destructor's [fclose] use an
    indeterminate pointer. *)
Lemma halfbuilt_sink_unusable n inp rest outs s :
  d_cmd_stdin (this s) = Indeterminate ->
  work n (inp :: rest) outs s = (Stop Undef, s).
Proof.
  intros Hs. unfold work, write_process_input.
  rewrite !bind_run. cbn [get_this]. rewrite bind_run, Hs. reflexivity.
Qed.

(** ** Descriptor flags *)

Section FdFlags.

Variables (fd flags : Z) (s : state) (d : fdesc).
Hypothesis fd_open : fds (os s) !! fd = Some d.

Local Abbreviation F := (fl_status d).

Lemma flag_bits i :
  0 <= i ->
  Z.testbit (Z.lor F flags) i = Z.testbit F i || Z.testbit flags i /\
  Z.testbit (Z.land F (Z.lnot flags)) i = Z.testbit F i && negb (Z.testbit flags i).
Proof.
  intros Hi. now rewrite Z.lor_spec, Z.land_spec, Z.lnot_spec.
Qed.

Local Abbreviation changed := (Z.land flags SETFL_MASK).


End FdFlags.

(** ** Teardown *)

(** The wait loop ends as soon as the script stops interrupting it. *)
Lemma wait_for_child_run fuel : forall pid pstat s,
  (interrupts (on_waitpid (env (os s))) < fuel)%nat ->
  exists s',
    wait_for_child fuel pid pstat s =
      (Ret (wait_value pstat (settled (on_waitpid (env (os s))))), s') /\
    this s' = this s /\
    fds (os s') = fds (os s) /\
    trace (os s') =
      trace (os s) ++
      replicate (S (interrupts (on_waitpid (env (os s))))) (EvWaitpid pid 0) /\
    (forall e, settled (on_waitpid (env (os s))) = WaitErr e -> errno (os s') = e).
Proof.
  induction fuel as [|fuel IH]; intros pid pstat s Hk; [lia|].
  open_state s. destruct on_waitpid0 as [|[child st|e] l]; exec.
  - eexists. split; [reflexivity|]. cbn. repeat split. now intros e [= <-].
  - eexists. split; [reflexivity|]. cbn. repeat split. intros e [=].
  - unfold settled in *. cbn [interrupts] in *.
    destruct (Z.eqb_spec e EINTR) as [->|Hne].
    + match goal with |- context [wait_for_child fuel pid pstat ?st] =>
        destruct (IH pid pstat st) as (s' & Hw & Ht & Hf & Htr & He); [cbn; lia|]
      end.
      exists s'. cbn in *. rewrite Hw, Ht, Hf, Htr. repeat split; [now flat_trace|].
      exact He.
    + eexists. split; [reflexivity|]. cbn. repeat split. now intros ? [= <-].
Qed.

Section Teardown.

Variables (fuel : nat) (s : state) (fd : Z) (d : fdesc).

Local Abbreviation wr := (snd (d_cmd_stdin_pipe (this s))).
Local Abbreviation pid := (d_cmd_pid (this s)).
Local Abbreviation script := (on_waitpid (env (os s))).
Local Abbreviation blocking := (Z.land (fl_status d) (Z.lnot O_NONBLOCK)).

Hypothesis stream_ok : d_cmd_stdin (this s) = Stream fd.
Hypothesis wr_open : fds (os s) !! wr = Some d.
Hypothesis wr_flags : fl_status d <> -1.
Hypothesis fcntl_ok : fault_free 2 (on_fcntl (env (os s))) = true.
Hypothesis enough : (interrupts script < fuel)%nat.

(** The whole run of the destructor on its normal path. *)
Lemma dtor_run :
  exists s',
    sink_impl_dtor fuel s = (Ret tt, s') /\
    trace (os s') =
      trace (os s) ++
      [EvFcntl wr F_GETFL 0; EvFcntl wr F_SETFL blocking; EvFclose fd] ++
      replicate (S (interrupts script)) (EvWaitpid pid 0) ++
      [verdict (settled script)].
Proof.
  unfold sink_impl_dtor, reset_fd_flags.
  open_state s. destruct d_cmd_stdin_pipe0 as [rd0 wr0]. cbn in *. exec.
  destruct on_fcntl0 as [|[?|] [|[?|] ?]]; try discriminate; go.
  all: destruct (Z.eqb_spec (fl_status d) (-1)); [contradiction|]; go.
  all: destruct on_fclose0; go.
  all: match goal with |- context [wait_for_child fuel ?p ?q ?st] =>
         destruct (wait_for_child_run fuel p q st) as (s' & Hw & Ht & Hf & Htr & He);
           [exact enough|]
       end.
  all: rewrite Hw; cbn in *.
  all: destruct (settled on_waitpid0) as [child st|e] eqn:Hs; cbn.
  all: try (destruct (WIFEXITED st) eqn:Hx; exec).
  all: eexists; (split; [reflexivity|]); cbn; rewrite Htr; flat_trace.
  all: rewrite ?Hx; try (rewrite (He e eq_refl)); reflexivity.
Qed.

Lemma interrupts_spec (l : list wait_reply) :
  take (interrupts l) l = replicate (interrupts l) (WaitErr EINTR) /\
  settled l <> WaitErr EINTR.
Proof.
  unfold settled. induction l as [|[child st|e] l [IH1 IH2]]; cbn; try (split; [done|discriminate]).
  destruct (Z.eqb_spec e EINTR) as [->|Hne]; cbn.
  - split; [now rewrite IH1|exact IH2].
  - split; [done|]. intros [= ->]. contradiction.
Qed.

(** C5: the destructor calls [waitpid] on [d_cmd_pid] and on nothing
    else, once more after each answer that is an [EINTR] failure; the
    answer that settles the wait is not such a failure, and when it is a
    failure with [errno] [e] the one line printed is
    [perror("waitpid()")], with no exit-code or abnormal-termination
    line. *)
Theorem dtor_waits_for_recorded_child :
  exists s',
    sink_impl_dtor fuel s = (Ret tt, s') /\
    trace (os s') =
      trace (os s) ++
      [EvFcntl wr F_GETFL 0; EvFcntl wr F_SETFL blocking; EvFclose fd] ++
      replicate (S (interrupts script)) (EvWaitpid (d_cmd_pid (this s)) 0) ++
      [verdict (settled script)] /\
    take (interrupts script) script = replicate (interrupts script) (WaitErr EINTR) /\
    settled script <> WaitErr EINTR /\
    (forall e, settled script = WaitErr e ->
       verdict (settled script) = EvPerror "waitpid()" e).
Proof.
  destruct dtor_run as (s' & Hrun & Htr). exists s'.
  destruct (interrupts_spec script) as [Hk Hlast].
  repeat split; try assumption. now intros e ->.
Qed.

(** C6: the order of the calls of the destructor.  [F_SETFL] installs
    flags without [O_NONBLOCK] on the write end, so the descriptor is
    blocking when the next call, [fclose], flushes and closes the
    stream; the first [waitpid] comes right after, and what follows it
    is only further [waitpid] calls and the final report. *)
Theorem dtor_unblock_close_wait :
  exists s1 s',
    reset_fd_flags wr O_NONBLOCK s = (Ret tt, s1) /\
    fl_status <$> fds (os s1) !! wr = Some blocking /\
    Z.land blocking O_NONBLOCK = 0 /\
    sink_impl_dtor fuel s = (Ret tt, s') /\
    trace (os s') =
      trace (os s) ++
      [EvFcntl wr F_GETFL 0; EvFcntl wr F_SETFL blocking;
       EvFclose fd;
       EvWaitpid pid 0] ++
      replicate (interrupts script) (EvWaitpid pid 0) ++ [verdict (settled script)].
Proof.
  destruct dtor_run as (s' & Hrun & Htr).
  assert (H1 : exists s1, reset_fd_flags wr O_NONBLOCK s = (Ret tt, s1) /\
                  fl_status <$> fds (os s1) !! wr = Some blocking).
  { clear Hrun Htr. unfold reset_fd_flags.
    open_state s. destruct d_cmd_stdin_pipe0 as [rd0 wr0]. cbn in *. exec.
    destruct on_fcntl0 as [|[?|] [|[?|] ?]]; try discriminate; go.
    all: destruct (Z.eqb_spec (fl_status d) (-1)); [contradiction|]; go.
    all: eexists; split; [reflexivity|]; now simplify_map_eq. }
  destruct H1 as (s1 & Hr & Hfl). exists s1, s'.
  repeat split; try assumption.
  rewrite <- Z.land_assoc, (Z.land_comm (Z.lnot _)), Z.land_lnot_diag.
  apply Z.land_0_r.
Qed.

End Teardown.

(** C3, what the code does: when [fcntl] fails in the destructor, the
    helper's [std::runtime_error] leaves the destructor; the stream is
    not closed and the child is not waited for. *)
Theorem dtor_fcntl_failure_throws fuel s e :
  head (on_fcntl (env (os s))) = Some (Some e) ->
  exists s',
    sink_impl_dtor fuel s = (Stop (Throw "fcntl() error"), s') /\
    trace (os s') =
      trace (os s) ++
      [EvFcntl (snd (d_cmd_stdin_pipe (this s))) F_GETFL 0; EvPerror "fcntl()" e] /\
    fds (os s') = fds (os s) /\
    on_waitpid (env (os s')) = on_waitpid (env (os s)).
Proof.
  intros He. unfold sink_impl_dtor, reset_fd_flags.
  open_state s. destruct on_fcntl0 as [|[?|] ?]; try discriminate.
  injection He as ->. go.
  eexists. split; [reflexivity|]. cbn. repeat split. now flat_trace.
Qed.

(** The same happens when the second call, [F_SETFL], is the one that fails. *)
Lemma dtor_setfl_failure_throws fuel s e l d :
  on_fcntl (env (os s)) = None :: Some e :: l ->
  fds (os s) !! snd (d_cmd_stdin_pipe (this s)) = Some d ->
  exists s', sink_impl_dtor fuel s = (Stop (Throw "fcntl() error"), s').
Proof.
  intros He Hd. unfold sink_impl_dtor, reset_fd_flags.
  open_state s. go. destruct (fl_status d =? -1); go; eexists; reflexivity.
Qed.

(** ** Writing *)

(** [fwrite] on a stream always comes back, and touches neither the
    object nor the descriptor table. *)
Lemma fwrite_returns inp size nmemb fd s :
  exists r s1,
    fwrite inp size nmemb (Stream fd) s = (Ret r, s1) /\
    this s1 = this s /\
    fds (os s1) = fds (os s) /\
    trace (os s1) = trace (os s) ++ [EvFwrite fd inp size nmemb] /\
    on_fflush (env (os s1)) = on_fflush (env (os s)).
Proof.
  open_state s. exec.
  destruct ((size =? 0) || (nmemb =? 0)); exec; [eauto 10|].
  destruct on_fwrite0 as [|[|k e] l]; exec; eauto 10.
Qed.

Lemma hard_error_reflect fd r s1 : hard_errorb fd r s1 = true <-> hard_error fd r s1.
Proof.
  unfold hard_errorb, hard_error.
  rewrite !andb_true_iff, !negb_true_iff, !Z.eqb_neq, Z.eqb_eq, bool_decide_eq_true.
  tauto.
Qed.

(** The optional flush and the return that end a successful write. *)
Lemma flush_step_returns (ub : bool) fd (v : Z) s1 :
  exists s',
    (when ub (fflush (Stream fd);; ret tt);; ret v) s1 = (Ret v, s') /\
    this s' = this s1 /\
    trace (os s') = trace (os s1) ++ (if ub then [EvFflush fd] else []).
Proof.
  open_state s1. destruct ub; exec.
  - destruct on_fflush0 as [|[e|] l]; exec; eauto.
  - rewrite app_nil_r. eauto.
Qed.

Section Writing.

Variables (inp : list Z) (n : Z) (s : state) (fd r : Z) (s1 : state).
Hypothesis stream_ok : d_cmd_stdin (this s) = Stream fd.
Hypothesis accepted :
  fwrite inp (d_in_item_sz (this s)) (size_t_of_int n) (Stream fd) s = (Ret r, s1).

Lemma write_process_input_run :
  write_process_input inp n s =
  if hard_errorb fd r s1 then (Stop (Throw "fwrite() error"), s1)
  else (when (d_unbuffered (this s)) (fflush (Stream fd);; ret tt);;
        ret (int_of_size_t r)) s1.
Proof.
  unfold write_process_input. rewrite bind_run. cbn [get_this].
  rewrite stream_ok, bind_run, accepted. unfold hard_errorb.
  destruct s1 as [t1 [m1 fe1 en1 tr1 o1]]. exec.
  destruct (r =? 0); exec; [|reflexivity].
  destruct (bool_decide (fd ∈ fe1)); exec; [|reflexivity].
  unfold EAGAIN, EWOULDBLOCK.
  destruct (en1 =? 11) eqn:E; exec; rewrite ?E; exec; reflexivity.
Qed.

(** C4: [write_process_input] throws exactly when [fwrite] took nothing
    (its return value, the number of whole items written, is [0]), the
    stream's error indicator is set and [errno] is neither [EAGAIN] nor
    [EWOULDBLOCK]; it leaves in no other abnormal way.  Otherwise it
    returns what [fwrite] returned; in particular a write that took
    nothing because it would block returns [0]. *)
Theorem write_throws_iff_hard_error :
  ((exists s', write_process_input inp n s = (Stop (Throw "fwrite() error"), s'))
     <-> hard_error fd r s1) /\
  ((exists why s', write_process_input inp n s = (Stop why, s'))
     <-> hard_error fd r s1) /\
  (~ hard_error fd r s1 ->
     exists s', write_process_input inp n s = (Ret (int_of_size_t r), s')) /\
  (r = 0 -> fd ∈ ferr (os s1) ->
     errno (os s1) = EAGAIN \/ errno (os s1) = EWOULDBLOCK ->
     exists s', write_process_input inp n s = (Ret 0, s')).
Proof.
  rewrite write_process_input_run.
  destruct (flush_step_returns (d_unbuffered (this s)) fd (int_of_size_t r) s1)
    as (s2 & Hfl & _).
  destruct (hard_errorb fd r s1) eqn:E.
  - apply hard_error_reflect in E. split; [|split; [|split]].
    + split; eauto.
    + split; eauto.
    + intros; contradiction.
    + intros _ _ [He|He]; destruct E as (_ & _ & H1 & H2); contradiction.
  - assert (Hn : ~ hard_error fd r s1).
    { intros H. apply hard_error_reflect in H. congruence. }
    rewrite Hfl. split; [|split; [|split]].
    + split; [intros (s' & [=])|intros; contradiction].
    + split; [intros (why & s' & [=])|intros; contradiction].
    + eauto.
    + intros -> _ _. eauto.
Qed.

End Writing.

(** C2: whatever [write_process_input] hands back, [work] reports the
    full [noutput_items] to the scheduler; it returns whenever the write
    returns, hence for every number of items [fwrite] accepted short of
    a hard error, and a value it returns is never anything else. *)
Theorem work_returns_noutput_items n inp rest outs s :
  (forall v s', work n (inp :: rest) outs s = (Ret v, s') -> v = n) /\
  (forall r s', write_process_input inp n s = (Ret r, s') ->
     work n (inp :: rest) outs s = (Ret n, s')) /\
  (forall fd r s1,
     d_cmd_stdin (this s) = Stream fd ->
     fwrite inp (d_in_item_sz (this s)) (size_t_of_int n) (Stream fd) s = (Ret r, s1) ->
     ~ hard_error fd r s1 ->
     exists s', work n (inp :: rest) outs s = (Ret n, s')).
Proof.
  unfold work. rewrite bind_run. split; [|split].
  - intros v s'. destruct (write_process_input inp n s) as [[r|why] s2]; exec; congruence.
  - intros r s' ->. reflexivity.
  - intros fd r s1 Hs Hfw Hn.
    rewrite (write_process_input_run inp n s fd r s1 Hs Hfw).
    destruct (hard_errorb fd r s1) eqn:E.
    + apply hard_error_reflect in E. contradiction.
    + destruct (flush_step_returns (d_unbuffered (this s)) fd (int_of_size_t r) s1)
        as (s2 & -> & _).
      eauto.
Qed.

(** ** The unbuffered flag *)

(** The library calls and the wait loop never look at the object. *)
Lemma blind_ret {A} (a : A) : blind (ret a).
Proof. intros b s. reflexivity. Qed.

Lemma blind_stop {A} why : blind (@stop A why).
Proof. intros b s. reflexivity. Qed.

Lemma blind_bind {A B} (m : M A) (k : A -> M B) :
  blind m -> (forall a, blind (k a)) -> blind (bind m k).
Proof.
  intros Hm Hk b s. rewrite !bind_run, Hm.
  destruct (m s) as [[a|why] s1]; [apply Hk|reflexivity].
Qed.

Lemma blind_when c m : blind m -> blind (when c m).
Proof. destruct c; [trivial|intros _; apply blind_ret]. Qed.

Ltac blind_prim :=
  intros b s; unfold flagged; open_state s; exec; repeat (case_match; exec); reflexivity.

Lemma blind_perror msg : blind (perror msg).
Proof. blind_prim. Qed.

Lemma blind_cerr_line line : blind (cerr_line line).
Proof. blind_prim. Qed.

Lemma blind_fcntl fd cmd arg : blind (fcntl fd cmd arg).
Proof. unfold fcntl. blind_prim. Qed.

Lemma blind_fwrite inp size nmemb f : blind (fwrite inp size nmemb f).
Proof. unfold fwrite. blind_prim. Qed.

Lemma blind_fflush f : blind (fflush f).
Proof. unfold fflush. blind_prim. Qed.

Lemma blind_fclose f : blind (fclose f).
Proof. unfold fclose. blind_prim. Qed.

Lemma blind_waitpid pid pstat options : blind (waitpid pid pstat options).
Proof. unfold waitpid. blind_prim. Qed.

Lemma blind_errno_is e : blind (e' <- get_errno;; ret (e' =? e)).
Proof. blind_prim. Qed.

Lemma blind_and_then a c : blind a -> blind c -> blind (a &&& c).
Proof.
  intros Ha Hc. apply blind_bind; [exact Ha|].
  intros [|]; [exact Hc|apply blind_ret].
Qed.

Create HintDb blind.
#[local] Hint Resolve blind_ret blind_stop blind_when blind_perror blind_cerr_line
  blind_fcntl blind_fwrite blind_fflush blind_fclose blind_waitpid
  blind_errno_is blind_and_then : blind.

Ltac blind_tac :=
  repeat first
    [ solve [auto with blind]
    | apply blind_when
    | apply blind_and_then
    | apply blind_bind; [|intros ?]
    | case_match ].

Lemma blind_wait_for_child fuel : forall pid pstat, blind (wait_for_child fuel pid pstat).
Proof.
  induction fuel as [|fuel IH]; intros pid pstat; cbn [wait_for_child]; blind_tac.
Qed.

Lemma blind_reset_fd_flags fd flag : blind (reset_fd_flags fd flag).
Proof. unfold reset_fd_flags, throw. blind_tac. Qed.

Lemma dtor_flagged b fuel s :
  sink_impl_dtor fuel (flagged b s) =
  let (res, s') := sink_impl_dtor fuel s in (res, flagged b s').
Proof.
  unfold sink_impl_dtor.
  rewrite !(bind_run get_this). cbn [get_this flagged this os set_d_unbuffered
    d_cmd_stdin_pipe d_cmd_stdin d_cmd_pid].
  generalize (d_cmd_stdin_pipe (this s)).2 (d_cmd_stdin (this s)) (d_cmd_pid (this s)).
  intros wr f pid. revert b s. change (blind
    (reset_fd_flags wr O_NONBLOCK;;
     fclose f;;
     p <- wait_for_child fuel pid None;;
     (if fst p =? -1 then perror "waitpid()"
      else match snd p with
           | Some st =>
               if WIFEXITED st
               then cerr_line ("Process exited with code " +:+ pretty (WEXITSTATUS st))
               else cerr_line "Abnormal process termination"
           | None => stop Undef
           end))).
  pose proof blind_reset_fd_flags. pose proof blind_wait_for_child.
  blind_tac.
Qed.

Section Unbuffered.

Variables (b : bool) (inp : list Z) (n : Z) (s : state) (fd r : Z) (s1 : state).
Hypothesis stream_ok : d_cmd_stdin (this s) = Stream fd.
Hypothesis accepted :
  fwrite inp (d_in_item_sz (this s)) (size_t_of_int n) (Stream fd) s = (Ret r, s1).

Lemma write_flagged_run :
  write_process_input inp n (flagged b s) =
  if hard_errorb fd r s1 then (Stop (Throw "fwrite() error"), flagged b s1)
  else if b then (fflush (Stream fd);; ret (int_of_size_t r)) (flagged b s1)
  else (Ret (int_of_size_t r), flagged b s1).
Proof.
  rewrite (write_process_input_run inp n (flagged b s) fd r (flagged b s1)).
  - change (hard_errorb fd r (flagged b s1)) with (hard_errorb fd r s1).
    destruct (hard_errorb fd r s1); [reflexivity|].
    cbn [flagged this d_unbuffered set_d_unbuffered].
    destruct b; [|reflexivity].
    cbn [when]. rewrite !bind_run.
    destruct (fflush (Stream fd) _) as [[a|why] s2]; reflexivity.
  - exact stream_ok.
  - cbn [flagged this d_in_item_sz set_d_unbuffered].
    change (State _ (os s)) with (flagged b s).
    now rewrite blind_fwrite, accepted.
Qed.

(** C9: [unbuffered] reads back what [set_unbuffered] stored;
    [set_unbuffered] changes that one member and nothing of the system;
    a write that does not throw makes the same [fwrite] call whatever
    the flag is and follows it with one [fflush] exactly when the flag
    is set; the destructor runs the same with either value. *)
Theorem unbuffered_flag_gates_flush :
  (set_unbuffered b;; unbuffered) s = (Ret b, flagged b s) /\
  set_unbuffered b s = (Ret tt, flagged b s) /\
  this (flagged b s) =
    Sink (d_in_item_sz (this s)) (d_cmd_stdin_pipe (this s)) (d_cmd_stdin (this s))
         (d_cmd_pid (this s)) b /\
  os (flagged b s) = os s /\
  write_process_input inp n (flagged b s) =
    (if hard_errorb fd r s1 then (Stop (Throw "fwrite() error"), flagged b s1)
     else if b then (fflush (Stream fd);; ret (int_of_size_t r)) (flagged b s1)
     else (Ret (int_of_size_t r), flagged b s1)) /\
  (hard_errorb fd r s1 = false ->
   exists s',
     write_process_input inp n (flagged b s) = (Ret (int_of_size_t r), s') /\
     trace (os s') =
       trace (os s) ++
       EvFwrite fd inp (d_in_item_sz (this s)) (size_t_of_int n)
       :: (if b then [EvFflush fd] else [])) /\
  (forall fuel,
     sink_impl_dtor fuel (flagged b s) =
     let (res, s') := sink_impl_dtor fuel s in (res, flagged b s')).
Proof.
  split; [reflexivity|]. split; [reflexivity|]. split; [reflexivity|].
  split; [reflexivity|]. split; [exact write_flagged_run|]. split.
  - intros Hh. rewrite write_flagged_run, Hh.
    destruct (fwrite_returns inp (d_in_item_sz (this s)) (size_t_of_int n) fd s)
      as (r' & s1' & Hfw & _ & _ & Htr & _).
    rewrite accepted in Hfw. injection Hfw as <- <-.
    destruct b.
    + destruct (flush_step_returns true fd (int_of_size_t r) (flagged true s1))
        as (s2 & Hfl & _ & Htr2).
      exists s2. split.
      * rewrite <- Hfl. cbn [when]. rewrite !bind_run.
        destruct (fflush (Stream fd) _) as [[a|why] s3]; reflexivity.
      * rewrite Htr2. cbn [flagged os]. rewrite Htr. now flat_trace.
    + eexists. split; [reflexivity|]. exact Htr.
  - intros fuel. apply dtor_flagged.
Qed.

End Unbuffered.

(** ** The statements at work on the concrete runs *)

Lemma ctor_fork_failure_returns_witness :
  exists s',
    sink_impl_ctor 4 "cat" (boot fork_fails) = (Ret tt, s') /\
    d_cmd_pid (this s') = -1 /\
    d_cmd_stdin (this s') = Indeterminate /\
    trace (os s') = [EvPipe; EvFork; EvPerror "fork()" 12].
Proof.
  apply (ctor_fork_failure_returns 4 "cat" (boot fork_fails) 3 4); reflexivity.
Defined.

Lemma dtor_fcntl_failure_throws_witness :
  exists s',
    sink_impl_dtor 1 (built late_fcntl_fault) = (Stop (Throw "fcntl() error"), s') /\
    trace (os s') =
      trace (os (built late_fcntl_fault)) ++
      [EvFcntl 4 F_GETFL 0; EvPerror "fcntl()" EBADF] /\
    fds (os s') = fds (os (built late_fcntl_fault)) /\
    on_waitpid (env (os s')) = [WaitOk 4242%positive 1792].
Proof.
  apply (dtor_fcntl_failure_throws 1 (built late_fcntl_fault) EBADF). reflexivity.
Defined.

Lemma child_exec_failure_exits_witness :
  exists s', create_command_process "cat" (boot exec_fails) = (Stop (Exit 1), s').
Proof.
  destruct (child_exec_failure_exits 0 "cat" (boot exec_fails) 3 4 eq_refl 2)
    as (s' & H & _); [reflexivity|reflexivity|].
  exists s'. exact H.
Defined.

Lemma parent_branch_setup_witness :
  exists s',
    create_command_process "cat" (boot quiet) = (Ret tt, s') /\
    this s' = Sink 0 (3, 4) (Stream 4) 4242 false /\
    fds (os s') !! 3 = None /\
    fds (os s') !! 4 = Some (Fdesc 2049 1).
Proof.
  destruct (parent_branch_setup "cat" (boot quiet) 3 4 eq_refl 4242)
    as (s' & H1 & _ & H2 & H3 & H4 & _); try reflexivity; [lia|].
  exists s'. repeat split; assumption.
Defined.



Lemma dtor_waits_for_recorded_child_witness :
  exists s',
    sink_impl_dtor 3 (built interrupted) = (Ret tt, s') /\
    trace (os s') =
      trace (os (built interrupted)) ++
      [EvFcntl 4 F_GETFL 0; EvFcntl 4 F_SETFL 1; EvFclose 4;
       EvWaitpid 4242 0; EvWaitpid 4242 0; EvWaitpid 4242 0;
       EvCerr "Process exited with code 7"].
Proof.
  destruct (dtor_waits_for_recorded_child 3 (built interrupted) 4 (Fdesc 2049 1))
    as (s' & H1 & H2 & _); try reflexivity; [cbn; lia|vm_compute; lia|].
  exists s'. split; [exact H1|exact H2].
Defined.

Lemma dtor_unblock_close_wait_witness :
  exists s1 s',
    reset_fd_flags 4 O_NONBLOCK (built quiet) = (Ret tt, s1) /\
    fl_status <$> fds (os s1) !! 4 = Some 1 /\
    sink_impl_dtor 1 (built quiet) = (Ret tt, s') /\
    trace (os s') =
      trace (os (built quiet)) ++
      [EvFcntl 4 F_GETFL 0; EvFcntl 4 F_SETFL 1; EvFclose 4; EvWaitpid 4242 0;
       EvCerr "Process exited with code 7"].
Proof.
  destruct (dtor_unblock_close_wait 1 (built quiet) 4 (Fdesc 2049 1))
    as (s1 & s' & H1 & H2 & _ & H3 & H4); try reflexivity; [cbn; lia|vm_compute; lia|].
  exists s1, s'. repeat split; assumption.
Defined.

Lemma write_throws_iff_hard_error_witness :
  exists s',
    write_process_input [1; 2; 3; 4] 1 (built broken_pipe) =
      (Stop (Throw "fwrite() error"), s').
Proof.
  assert (Hs : d_cmd_stdin (this (built broken_pipe)) = Stream 4) by reflexivity.
  assert (Hw : fwrite [1; 2; 3; 4] (d_in_item_sz (this (built broken_pipe)))
                 (size_t_of_int 1) (Stream 4) (built broken_pipe) =
               (Ret 0, run (fwrite [1; 2; 3; 4] 4 1 (Stream 4)) (built broken_pipe)))
    by (vm_compute; reflexivity).
  apply (write_throws_iff_hard_error _ _ _ _ _ _ Hs Hw).
  split; [reflexivity|]. split; [vm_compute; reflexivity|].
  split; vm_compute; lia.
Defined.

Lemma work_returns_noutput_items_witness :
  write_process_input [1; 2; 3] 3 (built pipe_full) =
    (Ret 1, run (write_process_input [1; 2; 3] 3) (built pipe_full)) /\
  work 3 [[1; 2; 3]] [] (built pipe_full) =
    (Ret 3, run (write_process_input [1; 2; 3] 3) (built pipe_full)).
Proof.
  assert (H : write_process_input [1; 2; 3] 3 (built pipe_full) =
              (Ret 1, run (write_process_input [1; 2; 3] 3) (built pipe_full)))
    by (vm_compute; reflexivity).
  split; [exact H|].
  exact (proj1 (proj2 (work_returns_noutput_items 3 [1; 2; 3] [] [] (built pipe_full))) 1 _ H).
Defined.

Lemma unbuffered_flag_gates_flush_witness :
  exists s',
    write_process_input [1; 2; 3] 3 (flagged true (built quiet)) =
      (Ret (int_of_size_t 3), s') /\
    trace (os s') =
      trace (os (built quiet)) ++
      [EvFwrite 4 [1; 2; 3] (d_in_item_sz (this (built quiet))) (size_t_of_int 3);
       EvFflush 4].
Proof.
  assert (Hs : d_cmd_stdin (this (built quiet)) = Stream 4) by reflexivity.
  assert (Hw : fwrite [1; 2; 3] (d_in_item_sz (this (built quiet)))
                 (size_t_of_int 3) (Stream 4) (built quiet) =
               (Ret 3, run (fwrite [1; 2; 3] 4 3 (Stream 4)) (built quiet)))
    by (vm_compute; reflexivity).
  destruct (unbuffered_flag_gates_flush true _ _ _ _ _ _ Hs Hw)
    as (_ & _ & _ & _ & _ & H & _).
  apply H. vm_compute. reflexivity.
Defined.

(** * Further properties of the code *)

(** ** Failures of construction *)

Section ConstructionFailures.

Variables (in_item_sz : Z) (cmd : string) (s : state).

(** X1: when [pipe] fails the constructor throws before anything else
    happened: no [fork] is made, the descriptor table and the object's
    pipe member are as they were, and the only calls are [pipe] and the
    [perror] that reports it. *)
Theorem ctor_pipe_failure_is_clean e :
  on_pipe (env (os s)) = Err e ->
  exists s',
    sink_impl_ctor in_item_sz cmd s = (Stop (Throw "pipe() error"), s') /\
    trace (os s') = trace (os s) ++ [EvPipe; EvPerror "pipe()" e] /\
    fds (os s') = fds (os s) /\
    d_cmd_stdin_pipe (this s') = d_cmd_stdin_pipe (this s) /\
    d_cmd_stdin (this s') = d_cmd_stdin (this s).
Proof.
  intros Hp. unfold sink_impl_ctor, create_command_process, create_pipe.
  open_state s. go. eexists. split; [reflexivity|]. cbn.
  repeat split. now flat_trace.
Qed.

Variables (rd wr pid : Z).
Hypothesis pipe_ok : on_pipe (env (os s)) = Ok (rd, wr).
Hypothesis ends_differ : rd <> wr.

(** X2: a constructor that throws after the child was forked (a failing
    [fcntl] in [set_fd_flags], or a failing [fdopen]) leaves the child
    behind: the pid is recorded, the parent still holds the write end
    of the pipe, and no [waitpid] was made. *)
Theorem ctor_throw_after_fork_leaves_child what s' :
  on_fork (env (os s)) = Ok pid ->
  0 < pid ->
  sink_impl_ctor in_item_sz cmd s = (Stop (Throw what), s') ->
  (what = "fcntl() error" \/ what = "fdopen() error") /\
  d_cmd_pid (this s') = pid /\
  fds (os s') !! rd = None /\
  is_Some (fds (os s') !! wr) /\
  exists evs,
    trace (os s') = trace (os s) ++ [EvPipe; EvFork; EvClose rd] ++ evs /\
    Forall not_a_wait evs.
Proof.
  intros Hf Hpid. unfold sink_impl_ctor, create_command_process, create_pipe, set_fd_flags.
  open_state s. exec.
  destruct (Z.eqb_spec pid (-1)); [lia|]. destruct (Z.eqb_spec pid 0); [lia|].
  go. repeat (case_match; go).
  all: intros [= <- <-]; cbn; simplify_map_eq.
  all: repeat split; eauto.
  all: eexists; flat_trace; split; [reflexivity|repeat constructor].
Qed.

(** X3: the result of [fcntl(F_SETFD, FD_CLOEXEC)] is not looked at.
    When that call fails the constructor still completes: the stream is
    set up over the write end, which is non-blocking but not
    close-on-exec. *)
Theorem ctor_ignores_setfd_failure e l :
  on_fork (env (os s)) = Ok pid ->
  0 < pid ->
  on_fcntl (env (os s)) = None :: None :: Some e :: l ->
  on_fdopen (env (os s)) = None ->
  exists s',
    sink_impl_ctor in_item_sz cmd s = (Ret tt, s') /\
    d_cmd_stdin (this s') = Stream wr /\
    fds (os s') !! wr = Some (Fdesc (Z.lor O_WRONLY O_NONBLOCK) 0) /\
    errno (os s') = e.
Proof.
  intros Hf Hpid Hfc Hfd.
  unfold sink_impl_ctor, create_command_process, create_pipe, set_fd_flags.
  open_state s. exec.
  destruct (Z.eqb_spec pid (-1)); [lia|]. destruct (Z.eqb_spec pid 0); [lia|].
  go. eexists. split; [reflexivity|]. cbn. now simplify_map_eq.
Qed.

(** X4: after a failed [fork] the constructor has returned with both
    ends of the pipe still open in this process, and the object cannot
    be torn down: once the destructor has put the write end in blocking
    mode it hands the never-assigned stream to [fclose]. *)
Theorem failed_fork_leaks_pipe e fuel :
  on_fork (env (os s)) = Err e ->
  d_cmd_stdin (this s) = Indeterminate ->
  fault_free 2 (on_fcntl (env (os s))) = true ->
  exists s' s'',
    sink_impl_ctor in_item_sz cmd s = (Ret tt, s') /\
    fds (os s') !! rd = Some (Fdesc O_RDONLY 0) /\
    fds (os s') !! wr = Some (Fdesc O_WRONLY 0) /\
    sink_impl_dtor fuel s' = (Stop Undef, s'') /\
    trace (os s'') =
      trace (os s') ++ [EvFcntl wr F_GETFL 0; EvFcntl wr F_SETFL O_WRONLY] /\
    is_Some (fds (os s'') !! rd) /\ is_Some (fds (os s'') !! wr).
Proof.
  intros Hf Hs Hfc.
  unfold sink_impl_ctor, create_command_process, create_pipe.
  open_state s. go.
  destruct on_fcntl0 as [|[?|] [|[?|] ?]]; try discriminate.
  all: eexists; eexists; (split; [reflexivity|]).
  all: split; [now simplify_map_eq|]; split; [now simplify_map_eq|].
  all: unfold sink_impl_dtor, reset_fd_flags; go.
  all: change (Z.land O_WRONLY (Z.lnot O_NONBLOCK)) with O_WRONLY.
  all: split; [reflexivity|]; cbn; simplify_map_eq.
  all: split; [now flat_trace|split; eauto].
Qed.

End ConstructionFailures.

(** ** Descriptor flags, set and reset *)

Lemma clear_after_set F flag :
  Z.land F flag = 0 -> Z.land (Z.lor F flag) (Z.lnot flag) = F.
Proof.
  intros H. apply Z.bits_inj'. intros i Hi.
  rewrite Z.land_spec, Z.lor_spec, Z.lnot_spec by assumption.
  assert (Hb : Z.testbit (Z.land F flag) i = false) by (rewrite H; apply Z.bits_0).
  rewrite Z.land_spec in Hb.
  destruct (Z.testbit F i), (Z.testbit flag i); cbn in *; congruence.
Qed.

(** Open up a state, naming its parts. *)
Ltac open_named s :=
  destruct s as [[sz pfd fp cpid ub]
                 [fdt fer eno tr [opipe ofork ofcntl ofdopen oexecl ofwrite offlush ofclose owait]]];
  cbn in *; subst.

(** X5: the two helpers compose.  Setting a flag and then resetting it
    leaves the descriptor with its settable bits of [flag] cleared,
    [F & ~(flag & SETFL_MASK)], which is [F & ~flag] for a flag made of
    settable bits; every other descriptor is left alone; when none of
    those bits was set to begin with, the descriptor table is exactly
    what it was. *)
Theorem set_then_reset_fd_flags fd flag s d :
  fds (os s) !! fd = Some d ->
  0 <= fl_status d ->
  fault_free 4 (on_fcntl (env (os s))) = true ->
  exists s',
    (set_fd_flags fd flag;; reset_fd_flags fd flag) s = (Ret tt, s') /\
    fds (os s') !! fd =
      Some (Fdesc (Z.land (fl_status d) (Z.lnot (Z.land flag SETFL_MASK))) (fl_descr d)) /\
    (settable flag ->
       fds (os s') !! fd = Some (Fdesc (Z.land (fl_status d) (Z.lnot flag)) (fl_descr d))) /\
    (forall fd', fd' <> fd -> fds (os s') !! fd' = fds (os s) !! fd') /\
    (Z.land (fl_status d) (Z.land flag SETFL_MASK) = 0 -> fds (os s') = fds (os s)).
Proof.
  intros fd_open status_nonneg fcntl_ok.
  assert (Hlor : Z.lor (fl_status d) (Z.land flag SETFL_MASK) <> -1).
  { assert (0 <= Z.land flag SETFL_MASK) by (apply Z.land_nonneg; right; vm_compute; discriminate).
    pose proof (proj2 (Z.lor_nonneg (fl_status d) (Z.land flag SETFL_MASK))
                  (conj status_nonneg H)). lia. }
  assert (Hl : Z.land (Z.lor (fl_status d) (Z.land flag SETFL_MASK))
                 (Z.lnot (Z.land flag SETFL_MASK)) =
               Z.land (fl_status d) (Z.lnot (Z.land flag SETFL_MASK))).
  { generalize (Z.land flag SETFL_MASK). intros m. bitwise. }
  unfold set_fd_flags, reset_fd_flags. open_named s. exec.
  destruct ofcntl as [|[?|] [|[?|] [|[?|] [|[?|] ?]]]]; try discriminate; go.
  all: destruct (Z.eqb_spec (fl_status d) (-1)); [lia|]; go.
  all: destruct (Z.eqb_spec (Z.lor (fl_status d) (Z.land flag SETFL_MASK)) (-1));
         [contradiction|]; go.
  all: eexists; split; [reflexivity|]; cbn; rewrite ?Hl.
  all: split; [now simplify_map_eq|].
  all: split; [intros Hset; rewrite !(settable_masked flag Hset); now simplify_map_eq|].
  all: split; [intros; now simplify_map_eq|].
  all: intros H0; rewrite insert_insert_eq.
  all: apply insert_id; rewrite fd_open; destruct d as [F D]; cbn in *; f_equal; f_equal.
  all: rewrite <- Hl; symmetry; now apply clear_after_set.
Qed.

(** ** The whole life of a sink *)

(** X6: a sink that is constructed and then destroyed leaks no
    descriptor.  When [pipe] hands out two new descriptors and nothing
    fails, the process's descriptor table after the destructor is the
    table before the constructor, and the calls made are the eleven of
    the two member functions, in order, plus the [waitpid] retries. *)
Theorem lifecycle_restores_descriptors in_item_sz cmd fuel s rd wr pid :
  on_pipe (env (os s)) = Ok (rd, wr) ->
  rd <> wr ->
  fds (os s) !! rd = None ->
  fds (os s) !! wr = None ->
  on_fork (env (os s)) = Ok pid ->
  0 < pid ->
  fault_free 5 (on_fcntl (env (os s))) = true ->
  on_fdopen (env (os s)) = None ->
  (interrupts (on_waitpid (env (os s))) < fuel)%nat ->
  exists s',
    (sink_impl_ctor in_item_sz cmd;; sink_impl_dtor fuel) s = (Ret tt, s') /\
    fds (os s') = fds (os s) /\
    trace (os s') =
      trace (os s) ++
      [EvPipe; EvFork; EvClose rd;
       EvFcntl wr F_GETFL 0; EvFcntl wr F_SETFL (Z.lor O_WRONLY O_NONBLOCK);
       EvFcntl wr F_SETFD FD_CLOEXEC; EvFdopen wr "w";
       EvFcntl wr F_GETFL 0; EvFcntl wr F_SETFL O_WRONLY; EvFclose wr] ++
      replicate (S (interrupts (on_waitpid (env (os s))))) (EvWaitpid pid 0) ++
      [verdict (settled (on_waitpid (env (os s))))].
Proof.
  intros Hp Hne Hrd Hwr Hf Hpid Hfc Hfd Hfuel.
  unfold sink_impl_ctor, sink_impl_dtor, create_command_process, create_pipe,
    set_fd_flags, reset_fd_flags.
  open_named s. exec.
  destruct (Z.eqb_spec pid (-1)); [lia|]. destruct (Z.eqb_spec pid 0); [lia|].
  destruct ofcntl as [|[?|] [|[?|] [|[?|] [|[?|] [|[?|] ?]]]]]; try discriminate; go.
  all: change (Z.lor O_WRONLY O_NONBLOCK) with 2049; go.
  all: change (Z.land 2049 (Z.lnot O_NONBLOCK)) with O_WRONLY; go.
  all: destruct ofclose; go.
  all: match goal with |- context [wait_for_child ?f ?p ?q ?st] =>
         destruct (wait_for_child_run f p q st) as (s' & Hw & Ht & Hfd' & Htr & He);
           [assumption|]
       end.
  all: rewrite Hw; cbn in *.
  all: destruct (settled owait) as [child st|e] eqn:Hs; cbn.
  all: try (destruct (WIFEXITED st) eqn:Hx; exec).
  all: eexists; (split; [reflexivity|]); cbn; rewrite Htr, Hfd'; flat_trace.
  all: rewrite ?Hx; try (rewrite (He e eq_refl)).
  all: split; [|reflexivity].
  all: apply map_eq; intros i; destruct (decide (i = wr)) as [->|]; simplify_map_eq; try done.
  all: destruct (decide (i = rd)) as [->|]; now simplify_map_eq.
Qed.

(** ** More on writing *)

(** Everything [fwrite] does to the state. *)
Lemma fwrite_effect inp size nmemb fd s :
  exists r s1,
    fwrite inp size nmemb (Stream fd) s = (Ret r, s1) /\
    this s1 = this s /\
    fds (os s1) = fds (os s) /\
    ferr (os s) ⊆ ferr (os s1) /\
    on_waitpid (env (os s1)) = on_waitpid (env (os s)) /\
    on_fflush (env (os s1)) = on_fflush (env (os s)) /\
    trace (os s1) = trace (os s) ++ [EvFwrite fd inp size nmemb] /\
    (0 <= nmemb -> 0 <= r <= nmemb) /\
    (size = 0 \/ nmemb = 0 ->
       r = 0 /\ ferr (os s1) = ferr (os s) /\ errno (os s1) = errno (os s) /\
       on_fwrite (env (os s1)) = on_fwrite (env (os s))).
Proof.
  open_named s. exec.
  destruct (Z.eqb_spec size 0) as [->|Hsz]; exec.
  { do 2 eexists. split; [reflexivity|]. cbn. repeat split; try done; lia. }
  destruct (Z.eqb_spec nmemb 0) as [->|Hnm]; exec.
  { do 2 eexists. split; [reflexivity|]. cbn. repeat split; try done; lia. }
  destruct ofwrite as [|[|k e] l]; exec.
  all: do 2 eexists; (split; [reflexivity|]); cbn.
  all: repeat split; try reflexivity; try lia.
  all: try (intros [?|?]; contradiction).
  all: set_solver.
Qed.

(** Everything the optional flush does to the state. *)
Lemma flush_step_effect (unb : bool) fd (v : Z) s1 :
  exists s',
    (when unb (fflush (Stream fd);; ret tt);; ret v) s1 = (Ret v, s') /\
    this s' = this s1 /\
    fds (os s') = fds (os s1) /\
    ferr (os s1) ⊆ ferr (os s') /\
    on_waitpid (env (os s')) = on_waitpid (env (os s1)) /\
    on_fwrite (env (os s')) = on_fwrite (env (os s1)) /\
    trace (os s') = trace (os s1) ++ (if unb then [EvFflush fd] else []) /\
    (forall e, unb = true -> head (on_fflush (env (os s1))) = Some (Some e) ->
       errno (os s') = e /\ fd ∈ ferr (os s')).
Proof.
  open_named s1. destruct unb; exec.
  - destruct offlush as [|[e|] l]; exec.
    all: eexists; (split; [reflexivity|]); cbn.
    all: repeat split; try reflexivity; try discriminate.
    all: try (intros ? _ [= <-]; split; [reflexivity|]).
    all: set_solver.
  - eexists. split; [reflexivity|]. cbn. rewrite app_nil_r.
    repeat split; try done.
Qed.

(** X7: whatever [work] comes to (a count, or the exception), it leaves
    the object and the descriptor table alone, never clears the
    stream's error indicator, never waits for the child, and makes one
    [fwrite] call followed by at most one [fflush]. *)
Theorem work_frame n inp rest outs s fd res s' :
  d_cmd_stdin (this s) = Stream fd ->
  work n (inp :: rest) outs s = (res, s') ->
  this s' = this s /\
  fds (os s') = fds (os s) /\
  ferr (os s) ⊆ ferr (os s') /\
  on_waitpid (env (os s')) = on_waitpid (env (os s)) /\
  exists evs,
    trace (os s') =
      trace (os s) ++
      EvFwrite fd inp (d_in_item_sz (this s)) (size_t_of_int n) :: evs /\
    (evs = [] \/ evs = [EvFflush fd]).
Proof.
  intros Hs.
  destruct (fwrite_effect inp (d_in_item_sz (this s)) (size_t_of_int n) fd s)
    as (r & s1 & Hfw & Ht & Hfd & Hfe & Hwp & _ & Htr & _).
  unfold work. rewrite bind_run, (write_process_input_run inp n s fd r s1 Hs Hfw).
  destruct (hard_errorb fd r s1).
  - intros [= <- <-]. repeat split; try assumption.
    exists []. rewrite Htr. auto.
  - destruct (flush_step_effect (d_unbuffered (this s)) fd (int_of_size_t r) s1)
      as (s2 & Hfl & Ht2 & Hfd2 & Hfe2 & Hwp2 & _ & Htr2 & _).
    rewrite Hfl. intros [= <- <-]. cbn.
    rewrite Ht2, Hfd2, Hwp2, Htr2, Htr. repeat split; try congruence.
    + set_solver.
    + eexists. flat_trace. split; [reflexivity|].
      destruct (d_unbuffered (this s)); auto.
Qed.

Lemma int_of_size_t_small r : 0 <= r < 2 ^ 31 -> int_of_size_t r = r.
Proof.
  intros H. unfold int_of_size_t.
  rewrite Z.mod_small; lia.
Qed.

(** X8: for a request that fits an [int], the count
    [write_process_input] returns lies between [0] and the request. *)
Theorem write_result_within_request inp n s fd v s' :
  d_cmd_stdin (this s) = Stream fd ->
  0 <= n < 2 ^ 31 ->
  write_process_input inp n s = (Ret v, s') ->
  0 <= v <= n.
Proof.
  intros Hs Hn.
  assert (Hsz : size_t_of_int n = n) by (unfold size_t_of_int; apply Z.mod_small; lia).
  destruct (fwrite_effect inp (d_in_item_sz (this s)) (size_t_of_int n) fd s)
    as (r & s1 & Hfw & _ & _ & _ & _ & _ & _ & Hb & _).
  rewrite (write_process_input_run inp n s fd r s1 Hs Hfw).
  rewrite Hsz in Hb. specialize (Hb (proj1 Hn)).
  destruct (hard_errorb fd r s1); [discriminate|].
  destruct (flush_step_effect (d_unbuffered (this s)) fd (int_of_size_t r) s1)
    as (s2 & Hfl & _).
  rewrite Hfl. intros [= <- <-]. rewrite int_of_size_t_small; lia.
Qed.

(** X9: an empty batch (no items, or items of size zero).  [fwrite]
    takes nothing and consumes nothing of what the system would answer,
    so the outcome is decided by what earlier calls left behind: the
    write throws when the error indicator is already set and [errno] is
    neither [EAGAIN] nor [EWOULDBLOCK], and returns [0] otherwise, in
    which case [work] still reports [noutput_items]. *)
Theorem empty_batch_write inp n s fd :
  d_cmd_stdin (this s) = Stream fd ->
  d_in_item_sz (this s) = 0 \/ n = 0 ->
  exists s',
    write_process_input inp n s =
      (if hard_errorb fd 0 s then Stop (Throw "fwrite() error") else Ret 0, s') /\
    on_fwrite (env (os s')) = on_fwrite (env (os s)) /\
    (forall rest outs,
       hard_errorb fd 0 s = false -> work n (inp :: rest) outs s = (Ret n, s')).
Proof.
  intros Hs Hz.
  destruct (fwrite_effect inp (d_in_item_sz (this s)) (size_t_of_int n) fd s)
    as (r & s1 & Hfw & _ & _ & _ & _ & Hff & _ & _ & H0).
  destruct H0 as [-> (Hfe & Hen & Hfwr)].
  { destruct Hz as [Hz | ->]; [left; exact Hz|right; reflexivity]. }
  assert (Hh : hard_errorb fd 0 s1 = hard_errorb fd 0 s).
  { unfold hard_errorb. now rewrite Hfe, Hen. }
  pose proof (write_process_input_run inp n s fd 0 s1 Hs Hfw) as Hw.
  rewrite Hh in Hw. destruct (hard_errorb fd 0 s).
  - exists s1. split; [exact Hw|]. split; [exact Hfwr|]. intros ? ? [=].
  - destruct (flush_step_effect (d_unbuffered (this s)) fd (int_of_size_t 0) s1)
      as (s2 & Hfl & _ & _ & _ & _ & Hfw2 & _).
    rewrite Hfl in Hw. exists s2. split; [exact Hw|]. split; [congruence|].
    intros rest outs _. unfold work. now rewrite bind_run, Hw.
Qed.

(** X10: the result of [fflush] is not looked at.  In unbuffered mode a
    write whose flush fails still returns [fwrite]'s count, and [work]
    reports the whole batch; the failure only shows in [errno] and in
    the stream's error indicator. *)
Theorem write_ignores_flush_failure inp n s fd r s1 e :
  d_cmd_stdin (this s) = Stream fd ->
  d_unbuffered (this s) = true ->
  fwrite inp (d_in_item_sz (this s)) (size_t_of_int n) (Stream fd) s = (Ret r, s1) ->
  ~ hard_error fd r s1 ->
  head (on_fflush (env (os s))) = Some (Some e) ->
  exists s',
    write_process_input inp n s = (Ret (int_of_size_t r), s') /\
    errno (os s') = e /\
    fd ∈ ferr (os s') /\
    (forall rest outs, work n (inp :: rest) outs s = (Ret n, s')).
Proof.
  intros Hs Hub Hfw Hn Hfl.
  destruct (fwrite_effect inp (d_in_item_sz (this s)) (size_t_of_int n) fd s)
    as (r' & s1' & Hfw' & _ & _ & _ & _ & Hff & _).
  rewrite Hfw in Hfw'. injection Hfw' as <- <-.
  pose proof (write_process_input_run inp n s fd r s1 Hs Hfw) as Hw.
  destruct (hard_errorb fd r s1) eqn:E.
  { apply hard_error_reflect in E. contradiction. }
  destruct (flush_step_effect (d_unbuffered (this s)) fd (int_of_size_t r) s1)
    as (s2 & Hstep & _ & _ & _ & _ & _ & _ & Herr).
  rewrite Hstep in Hw. exists s2.
  destruct (Herr e Hub) as [He Hin]; [now rewrite Hff|].
  repeat split; try assumption.
  intros rest outs. unfold work. now rewrite bind_run, Hw.
Qed.

(** ** The child *)


(** X12: when the read end of the pipe is descriptor [0] (the process
    was started with standard input closed), [dup2] has nothing to do
    and the [close] that follows closes the child's standard input: the
    command is started, or [execl] fails, with descriptor [0] closed. *)
Theorem child_loses_stdin_when_pipe_is_fd0 cmd s wr :
  on_pipe (env (os s)) = Ok (STDIN_FILENO, wr) ->
  on_fork (env (os s)) = Ok 0 ->
  wr <> STDIN_FILENO ->
  fds (os (run (create_command_process cmd) s)) !! STDIN_FILENO = None /\
  exists evs,
    trace (os (run (create_command_process cmd) s)) =
      trace (os s) ++
      [EvPipe; EvFork; EvDup2 STDIN_FILENO STDIN_FILENO;
       EvClose STDIN_FILENO; EvClose wr;
       EvExecl "/bin/sh" ["sh"; "-c"; cmd]] ++ evs.
Proof.
  intros Hp Hf Hw0.
  unfold run, create_command_process, create_pipe.
  open_named s. go.
  destruct (decide (STDIN_FILENO = STDIN_FILENO)); [|contradiction]. go.
  destruct oexecl; go.
  all: split; [now simplify_map_eq|eexists; flat_trace; reflexivity].
Qed.

(** ** What the destructor prints *)

Lemma wait_status_exited c :
  0 <= c < 256 ->
  WIFEXITED (c * 256) = true /\ WEXITSTATUS (c * 256) = c.
Proof.
  intros Hc. unfold WIFEXITED, WEXITSTATUS. split.
  - apply Z.eqb_eq. change 127 with (Z.ones 7). rewrite Z.land_ones by lia.
    replace (c * 256) with (c * 2 * 2 ^ 7) by lia. apply Z.mod_mul. lia.
  - rewrite Z.shiftr_land. change (Z.shiftr 65280 8) with (Z.ones 8).
    rewrite Z.land_ones, Z.shiftr_div_pow2 by lia.
    change (2 ^ 8) with 256. rewrite Z.div_mul by lia. apply Z.mod_small. lia.
Qed.

Lemma wait_status_signaled sig core :
  0 < sig < 128 ->
  WIFEXITED (sig + 128 * Z.b2z core) = false.
Proof.
  intros Hs. unfold WIFEXITED. apply Z.eqb_neq.
  change 127 with (Z.ones 7). rewrite Z.land_ones by lia.
  change (2 ^ 7) with 128. rewrite (Z.mul_comm 128), Z.mod_add by lia.
  rewrite Z.mod_small; lia.
Qed.

(** X13: the destructor's report tells the child's fate.  For a child
    that exited with code [c] the line printed is "Process exited with
    code c"; for a child killed by signal [sig], with or without a core
    dump, it is "Abnormal process termination". *)
Theorem dtor_reports_child_fate fuel s fd d child st :
  d_cmd_stdin (this s) = Stream fd ->
  fds (os s) !! snd (d_cmd_stdin_pipe (this s)) = Some d ->
  fl_status d <> -1 ->
  fault_free 2 (on_fcntl (env (os s))) = true ->
  (interrupts (on_waitpid (env (os s))) < fuel)%nat ->
  settled (on_waitpid (env (os s))) = WaitOk child st ->
  exists s' pre,
    sink_impl_dtor fuel s = (Ret tt, s') /\
    (forall c, 0 <= c < 256 -> st = c * 256 ->
       trace (os s') = pre ++ [EvCerr ("Process exited with code " +:+ pretty c)]) /\
    (forall sig core, 0 < sig < 128 -> st = sig + 128 * Z.b2z core ->
       trace (os s') = pre ++ [EvCerr "Abnormal process termination"]).
Proof.
  intros Hs Hd Hfl Hfc Hfuel Hset.
  destruct (dtor_run fuel s fd d Hs Hd Hfl Hfc Hfuel) as (s' & Hrun & Htr).
  rewrite Hset in Htr. cbn [verdict] in Htr.
  rewrite !app_assoc in Htr.
  eexists s', _. split; [exact Hrun|]. split.
  - intros c Hc ->. destruct (wait_status_exited c Hc) as [H1 H2].
    rewrite H1, H2 in Htr. exact Htr.
  - intros sig core Hsig ->. rewrite (wait_status_signaled sig core Hsig) in Htr.
    exact Htr.
Qed.

(** ** Two batches in a row *)

(** X14: two calls of [work] in a row, when both return, hand their
    batches to the stream in call order, each [fwrite] followed by at
    most its own [fflush]; the value returned is the second request. *)
Theorem works_reach_stream_in_call_order n1 inp1 n2 inp2 s fd v s' :
  d_cmd_stdin (this s) = Stream fd ->
  (work n1 [inp1] [];; work n2 [inp2] []) s = (Ret v, s') ->
  v = n2 /\
  exists evs1 evs2,
    trace (os s') =
      trace (os s) ++
      EvFwrite fd inp1 (d_in_item_sz (this s)) (size_t_of_int n1) :: evs1 ++
      EvFwrite fd inp2 (d_in_item_sz (this s)) (size_t_of_int n2) :: evs2 /\
    (evs1 = [] \/ evs1 = [EvFflush fd]) /\
    (evs2 = [] \/ evs2 = [EvFflush fd]).
Proof.
  intros Hs. rewrite bind_run.
  destruct (work n1 [inp1] [] s) as [[v1|why] s1] eqn:H1; [|discriminate].
  intros H2.
  destruct (work_frame _ _ _ _ _ _ _ _ Hs H1) as (Ht1 & _ & _ & _ & evs1 & Htr1 & Hev1).
  assert (Hs1 : d_cmd_stdin (this s1) = Stream fd) by now rewrite Ht1.
  destruct (work_frame _ _ _ _ _ _ _ _ Hs1 H2) as (_ & _ & _ & _ & evs2 & Htr2 & Hev2).
  split.
  - revert H2. unfold work. rewrite bind_run.
    destruct (write_process_input inp2 n2 s1) as [[r|why] s2]; exec; congruence.
  - exists evs1, evs2. rewrite Htr2, Htr1, Ht1. flat_trace. auto.
Qed.


(** ** The further statements at work on the concrete runs *)

Lemma ctor_pipe_failure_is_clean_witness :
  exists s',
    sink_impl_ctor 4 "cat" (boot pipe_fails) = (Stop (Throw "pipe() error"), s') /\
    trace (os s') = [EvPipe; EvPerror "pipe()" 24].
Proof.
  destruct (ctor_pipe_failure_is_clean 4 "cat" (boot pipe_fails) 24 eq_refl)
    as (s' & H1 & H2 & _).
  exists s'. split; assumption.
Defined.

Lemma ctor_throw_after_fork_leaves_child_witness :
  d_cmd_pid (this (run (sink_impl_ctor 4 "cat") (boot fdopen_fails))) = 4242 /\
  is_Some (fds (os (run (sink_impl_ctor 4 "cat") (boot fdopen_fails))) !! 4).
Proof.
  assert (H : sink_impl_ctor 4 "cat" (boot fdopen_fails) =
              (Stop (Throw "fdopen() error"),
               run (sink_impl_ctor 4 "cat") (boot fdopen_fails)))
    by (vm_compute; reflexivity).
  assert (Hne : 3 <> 4) by lia. assert (Hpid : 0 < 4242) by lia.
  destruct (ctor_throw_after_fork_leaves_child 4 "cat" (boot fdopen_fails) 3 4 4242
              eq_refl Hne _ _ eq_refl Hpid H) as (_ & H1 & _ & H2 & _).
  split; assumption.
Defined.

Lemma ctor_ignores_setfd_failure_witness :
  exists s',
    sink_impl_ctor 4 "cat" (boot setfd_fails) = (Ret tt, s') /\
    fds (os s') !! 4 = Some (Fdesc 2049 0).
Proof.
  assert (Hne : 3 <> 4) by lia. assert (Hpid : 0 < 4242) by lia.
  destruct (ctor_ignores_setfd_failure 4 "cat" (boot setfd_fails) 3 4 4242
              eq_refl Hne EBADF [] eq_refl Hpid eq_refl eq_refl) as (s' & H1 & _ & H2 & _).
  exists s'. split; assumption.
Defined.

Lemma failed_fork_leaks_pipe_witness :
  exists s' s'',
    sink_impl_ctor 4 "cat" (boot fork_fails) = (Ret tt, s') /\
    fds (os s') !! 3 = Some (Fdesc O_RDONLY 0) /\
    fds (os s') !! 4 = Some (Fdesc O_WRONLY 0) /\
    sink_impl_dtor 1 s' = (Stop Undef, s'').
Proof.
  assert (Hne : 3 <> 4) by lia.
  destruct (failed_fork_leaks_pipe 4 "cat" (boot fork_fails) 3 4 eq_refl Hne 12 1
              eq_refl eq_refl eq_refl) as (s' & s'' & H1 & H2 & H3 & H4 & _).
  exists s', s''. repeat split; assumption.
Defined.

Lemma set_then_reset_fd_flags_witness :
  exists s',
    (set_fd_flags 1 O_NONBLOCK;; reset_fd_flags 1 O_NONBLOCK) (boot quiet) = (Ret tt, s') /\
    fds (os s') = fds (os (boot quiet)).
Proof.
  assert (H0 : 0 <= fl_status (Fdesc O_WRONLY 0)) by (cbn; unfold O_WRONLY; lia).
  destruct (set_then_reset_fd_flags 1 O_NONBLOCK (boot quiet) (Fdesc O_WRONLY 0)
              eq_refl H0 eq_refl) as (s' & Hr & _ & _ & _ & Hfd).
  exists s'. split; [exact Hr|]. apply Hfd. reflexivity.
Defined.

Lemma lifecycle_restores_descriptors_witness :
  exists s',
    (sink_impl_ctor 4 "cat";; sink_impl_dtor 1) (boot quiet) = (Ret tt, s') /\
    fds (os s') = fds (os (boot quiet)).
Proof.
  assert (Hne : 3 <> 4) by lia. assert (Hpid : 0 < 4242) by lia.
  assert (Hfuel : (interrupts (on_waitpid (env (os (boot quiet)))) < 1)%nat)
    by (vm_compute; lia).
  destruct (lifecycle_restores_descriptors 4 "cat" 1 (boot quiet) 3 4 4242
              eq_refl Hne eq_refl eq_refl eq_refl Hpid eq_refl eq_refl Hfuel)
    as (s' & H1 & H2 & _).
  exists s'. split; assumption.
Defined.

Lemma work_frame_witness :
  this (run (work 3 [[1; 2; 3]] []) (built pipe_full)) = this (built pipe_full) /\
  fds (os (run (work 3 [[1; 2; 3]] []) (built pipe_full))) = fds (os (built pipe_full)).
Proof.
  assert (Hs : d_cmd_stdin (this (built pipe_full)) = Stream 4) by reflexivity.
  assert (H : work 3 [[1; 2; 3]] [] (built pipe_full) =
              (Ret 3, run (work 3 [[1; 2; 3]] []) (built pipe_full)))
    by (vm_compute; reflexivity).
  destruct (work_frame _ _ _ _ _ _ _ _ Hs H) as (H1 & H2 & _).
  split; assumption.
Defined.

Lemma write_result_within_request_witness :
  write_process_input [1; 2; 3] 3 (built pipe_full) =
    (Ret 1, run (write_process_input [1; 2; 3] 3) (built pipe_full)) /\
  0 <= 1 <= 3.
Proof.
  assert (Hs : d_cmd_stdin (this (built pipe_full)) = Stream 4) by reflexivity.
  assert (Hn : 0 <= 3 < 2 ^ 31) by lia.
  assert (H : write_process_input [1; 2; 3] 3 (built pipe_full) =
              (Ret 1, run (write_process_input [1; 2; 3] 3) (built pipe_full)))
    by (vm_compute; reflexivity).
  split; [exact H|].
  exact (write_result_within_request _ _ _ _ _ _ Hs Hn H).
Defined.

Lemma empty_batch_write_witness :
  exists s', write_process_input [] 0 (built quiet) = (Ret 0, s').
Proof.
  assert (Hs : d_cmd_stdin (this (built quiet)) = Stream 4) by reflexivity.
  destruct (empty_batch_write [] 0 (built quiet) 4 Hs (or_intror eq_refl))
    as (s' & H & _).
  exists s'. exact H.
Defined.

Lemma write_ignores_flush_failure_witness :
  exists s',
    write_process_input [1; 2; 3] 3 (flagged true (built flush_fails)) =
      (Ret (int_of_size_t 3), s') /\
    errno (os s') = 32.
Proof.
  assert (Hs : d_cmd_stdin (this (flagged true (built flush_fails))) = Stream 4)
    by reflexivity.
  assert (Hw : fwrite [1; 2; 3] (d_in_item_sz (this (flagged true (built flush_fails))))
                 (size_t_of_int 3) (Stream 4) (flagged true (built flush_fails)) =
               (Ret 3, run (fwrite [1; 2; 3] 4 3 (Stream 4))
                           (flagged true (built flush_fails))))
    by (vm_compute; reflexivity).
  assert (Hn : ~ hard_error 4 3 (run (fwrite [1; 2; 3] 4 3 (Stream 4))
                                     (flagged true (built flush_fails))))
    by (intros [H _]; lia).
  assert (Hf : head (on_fflush (env (os (flagged true (built flush_fails))))) =
               Some (Some 32)) by (vm_compute; reflexivity).
  destruct (write_ignores_flush_failure _ _ _ _ _ _ 32 Hs eq_refl Hw Hn Hf)
    as (s' & H1 & H2 & _).
  exists s'. split; assumption.
Defined.


Lemma child_loses_stdin_when_pipe_is_fd0_witness :
  fds (os (run (create_command_process "cat") (boot_without_stdin stdin_is_pipe)))
    !! STDIN_FILENO = None.
Proof.
  assert (H : 3 <> STDIN_FILENO) by (unfold STDIN_FILENO; lia).
  exact (proj1 (child_loses_stdin_when_pipe_is_fd0 "cat"
                  (boot_without_stdin stdin_is_pipe) 3 eq_refl eq_refl H)).
Defined.

Lemma dtor_reports_child_fate_witness :
  exists s' pre,
    sink_impl_dtor 1 (built quiet) = (Ret tt, s') /\
    trace (os s') = pre ++ [EvCerr ("Process exited with code " +:+ pretty 7)].
Proof.
  assert (Hs : d_cmd_stdin (this (built quiet)) = Stream 4) by reflexivity.
  assert (Hd : fds (os (built quiet)) !! snd (d_cmd_stdin_pipe (this (built quiet))) =
               Some (Fdesc 2049 1)) by (vm_compute; reflexivity).
  assert (Hfl : fl_status (Fdesc 2049 1) <> -1) by (cbn; lia).
  assert (Hfc : fault_free 2 (on_fcntl (env (os (built quiet)))) = true)
    by (vm_compute; reflexivity).
  assert (Hfuel : (interrupts (on_waitpid (env (os (built quiet)))) < 1)%nat)
    by (vm_compute; lia).
  assert (Hset : settled (on_waitpid (env (os (built quiet)))) =
                 WaitOk 4242%positive 1792) by (vm_compute; reflexivity).
  destruct (dtor_reports_child_fate 1 _ 4 _ _ _ Hs Hd Hfl Hfc Hfuel Hset)
    as (s' & pre & H1 & H2 & _).
  exists s', pre. split; [exact H1|]. apply H2; lia.
Defined.

Lemma works_reach_stream_in_call_order_witness :
  exists evs1 evs2,
    trace (os (run (work 1 [[1]] [];; work 2 [[2; 3]] []) (built quiet))) =
      trace (os (built quiet)) ++
      EvFwrite 4 [1] (d_in_item_sz (this (built quiet))) (size_t_of_int 1) :: evs1 ++
      EvFwrite 4 [2; 3] (d_in_item_sz (this (built quiet))) (size_t_of_int 2) :: evs2.
Proof.
  assert (Hs : d_cmd_stdin (this (built quiet)) = Stream 4) by reflexivity.
  assert (H : (work 1 [[1]] [];; work 2 [[2; 3]] []) (built quiet) =
              (Ret 2, run (work 1 [[1]] [];; work 2 [[2; 3]] []) (built quiet)))
    by (vm_compute; reflexivity).
  destruct (works_reach_stream_in_call_order _ _ _ _ _ _ _ _ Hs H)
    as (_ & evs1 & evs2 & Htr & _).
  exists evs1, evs2. exact Htr.
Defined.

Lemma parent_closes_read_end_first_witness :
  exists evs,
    trace (os (run (create_command_process "cat") (boot fdopen_fails))) =
      [EvPipe; EvFork; EvClose 3] ++ evs /\
    fds (os (run (create_command_process "cat") (boot fdopen_fails))) !! 3 = None.
Proof.
  assert (Hne : 3 <> 4) by lia. assert (Hpid : 0 < 4242) by lia.
  exact (parent_closes_read_end_first "cat" (boot fdopen_fails) 3 4 eq_refl 4242
           Hne eq_refl Hpid).
Defined.
